(** * offscreen-canvas: the Controller (index.js) and the Renderer (worker.js)

    A shallow embedding of the two scripts of the demo.  The main-thread
    script measures a canvas and posts messages to a worker; the worker
    script generates a dataset, waits for the drawing surface and then
    renders forever.

    Conventions of the embedding.
    - A handler that can raise is a function from the script's state to the
      state it leaves behind together with a completion: [Normal v] or
      [Throw e].  What was mutated before a throw stays mutated, as in
      JavaScript.
    - Effects on the outside world (messages posted, draw calls, frame
      requests, writes to the canvas) are appended to a trace, in program
      order.
    - Integral numbers are [Z].  The easing value, the point coordinates and
      the colour channels are real numbers: the doubles of the engine are
      idealised as reals.
    - A property assignment on a host object ([gl.canvas.width = width])
      stores the integer assigned. *)

From Stdlib Require Import ZArith List String Ascii Bool Lia Reals Lra.
Import ListNotations.

Set Implicit Arguments.

(** ** The language built-ins the two scripts call *)

Module JS.

Inductive error : Type :=
| TypeError (msg : string)
| RangeError (msg : string).

Inductive completion (A : Type) : Type :=
| Normal (v : A)
| Throw (e : error).
Arguments Normal {A} v.
Arguments Throw {A} e.

(** The numbers that reach the code paths modelled here: NaN, the two
    infinities and the finite decimals [m * 10^e].  Every numeric string
    denotes such a decimal exactly; rounding to the nearest double is not
    modelled. *)
Inductive number : Type :=
| NaN
| Infinity (negative : bool)
| Finite (m e : Z).

Definition ofZ (z : Z) : number := Finite z 0.

Local Open Scope Z_scope.

(** [String.prototype.substring(start)] with one argument. *)
Fixpoint substring (start : nat) (s : string) : string :=
  match start, s with
  | O, _ => s
  | S _, EmptyString => EmptyString
  | S n, String _ r => substring n r
  end.

(** The white space of [StrWhiteSpaceChar] that fits in one byte. *)
Definition isWhiteSpace (c : ascii) : bool :=
  let n := nat_of_ascii c in
  ((9 <=? n) && (n <=? 13) || (n =? 32))%nat.

Fixpoint trimStart (s : string) : string :=
  match s with
  | String c r => if isWhiteSpace c then trimStart r else s
  | EmptyString => EmptyString
  end.

(** The value of a digit in a radix up to 36, if it is one. *)
Definition digitValue (radix : Z) (c : ascii) : option Z :=
  let n := Z.of_nat (nat_of_ascii c) in
  let v := if (48 <=? n) && (n <=? 57) then n - 48
           else if (97 <=? n) && (n <=? 122) then n - 87
           else if (65 <=? n) && (n <=? 90) then n - 55
           else 36 in
  if v <? radix then Some v else None.

(** Reads the longest prefix of digits of the radix; [acc] is the value
    read so far and [seen] the number of digits read.  Returns the value,
    the number of digits and the rest of the string. *)
Fixpoint readDigits (radix : Z) (s : string) (acc : Z) (seen : nat)
  : Z * nat * string :=
  match s with
  | String c r =>
      match digitValue radix c with
      | Some v => readDigits radix r (acc * radix + v) (S seen)
      | None => (acc, seen, s)
      end
  | EmptyString => (acc, seen, s)
  end.

Definition readSign (s : string) : bool * string :=
  match s with
  | String "-"%char r => (true, r)
  | String "+"%char r => (false, r)
  | _ => (false, s)
  end.

Definition applySign (negative : bool) (z : Z) : Z :=
  if negative then - z else z.

(** [parseInt(string)] with the radix left undefined: leading white
    space, a sign, an optional [0x] prefix that selects radix 16, then
    the longest run of digits; NaN when that run is empty. *)
Definition parseInt (s : string) : number :=
  let '(negative, s1) := readSign (trimStart s) in
  let '(radix, s2) :=
    match s1 with
    | String "0"%char (String "x"%char r) => (16, r)
    | String "0"%char (String "X"%char r) => (16, r)
    | _ => (10, s1)
    end in
  match readDigits radix s2 0 0 with
  | (_, O, _) => NaN
  | (v, S _, _) => ofZ (applySign negative v)
  end.

Fixpoint onlyWhiteSpace (s : string) : bool :=
  match s with
  | String c r => isWhiteSpace c && onlyWhiteSpace r
  | EmptyString => true
  end.

(** [0x], [0o] and [0b] literals of [Number(string)]: no sign, at least
    one digit, nothing but white space behind.  [None] when the string
    does not start with such a prefix. *)
Definition nonDecimalLiteral (s : string) : option number :=
  let literal radix r :=
    match readDigits radix r 0 0 with
    | (v, S _, rest) => if onlyWhiteSpace rest then ofZ v else NaN
    | (_, O, _) => NaN
    end in
  match s with
  | String "0"%char (String c r) =>
      if (c =? "x")%char || (c =? "X")%char then Some (literal 16 r)
      else if (c =? "o")%char || (c =? "O")%char then Some (literal 8 r)
      else if (c =? "b")%char || (c =? "B")%char then Some (literal 2 r)
      else None
  | _ => None
  end.

(** The exponent part of a decimal literal: the exponent and the rest of
    the string, or [None] when an [e] is not followed by digits. *)
Definition exponentPart (s : string) : option (Z * string) :=
  match s with
  | String c r =>
      if (c =? "e")%char || (c =? "E")%char then
        let '(negative, r1) := readSign r in
        match readDigits 10 r1 0 0 with
        | (v, S _, r2) => Some (applySign negative v, r2)
        | (_, O, _) => None
        end
      else Some (0, s)
  | EmptyString => Some (0, s)
  end.

(** [Number(string)]: the value of a [StringNumericLiteral], NaN for any
    other string.  The empty string and white space denote 0. *)
Definition Number (s : string) : number :=
  let s0 := trimStart s in
  match s0 with
  | EmptyString => ofZ 0
  | _ =>
      match nonDecimalLiteral s0 with
      | Some n => n
      | None =>
          let '(negative, s1) := readSign s0 in
          if String.prefix "Infinity" s1 then
            if onlyWhiteSpace (substring 8 s1) then Infinity negative else NaN
          else
            let '(ip, ni, s2) := readDigits 10 s1 0 0 in
            let '(m, nf, s3) :=
              match s2 with
              | String "."%char r => readDigits 10 r ip 0
              | _ => (ip, O, s2)
              end in
            match ni, nf with
            | O, O => NaN
            | _, _ =>
                match exponentPart s3 with
                | Some (ex, s4) =>
                    if onlyWhiteSpace s4
                    then Finite (applySign negative m) (ex - Z.of_nat nf)
                    else NaN
                | None => NaN
                end
            end
      end
  end.

(** The decimal digits of a positive integer, most significant first. *)
Fixpoint digitsFuel (fuel : nat) (z : Z) (acc : list Z) : list Z :=
  match fuel with
  | O => acc
  | S f => if z <? 10 then z :: acc
           else digitsFuel f (z / 10) (z mod 10 :: acc)
  end.

Definition decimalDigits (z : Z) : list Z :=
  digitsFuel (S (Z.to_nat (Z.log2 z))) z [].

Definition digitChar (d : Z) : ascii := ascii_of_nat (48 + Z.to_nat d).

(** The decimal digits, and the step that reads one more of them. *)
Definition digit (d : Z) : Prop := 0 <= d <= 9.

Definition step (acc d : Z) : Z := acc * 10 + d.

Definition digitString (ds : list Z) : string :=
  fold_right (fun d r => String (digitChar d) r) EmptyString ds.

Fixpoint dropZeros (ds : list Z) : list Z :=
  match ds with
  | 0 :: r => dropZeros r
  | _ => ds
  end.

Definition zeros (n : Z) : string := digitString (repeat 0 (Z.to_nat n)).

(** [Number::toString] in radix 10, as a template literal applies it:
    with [s] the [k] significant digits and [n] the position of the
    decimal point, plain digits up to 21 places, a leading [0.] down to
    1e-6, the exponent form otherwise. *)
Definition NumberToString (x : number) : string :=
  match x with
  | NaN => "NaN"
  | Infinity negative => if negative then "-Infinity" else "Infinity"
  | Finite m e =>
      if m =? 0 then "0"%string else
      let ds := decimalDigits (Z.abs m) in
      let s := rev (dropZeros (rev ds)) in
      let k := Z.of_nat (List.length s) in
      let n := Z.of_nat (List.length ds) + e in
      let body :=
        if (k <=? n) && (n <=? 21) then
          (digitString s ++ zeros (n - k))%string
        else if (0 <? n) && (n <=? 21) then
          (digitString (firstn (Z.to_nat n) s) ++ "."
             ++ digitString (skipn (Z.to_nat n) s))%string
        else if (-6 <? n) && (n <=? 0) then
          ("0." ++ zeros (- n) ++ digitString s)%string
        else
          let sign := if n - 1 <? 0 then "-"%string else "+"%string in
          let ex := (sign ++ digitString (decimalDigits (Z.abs (n - 1))))%string in
          match s with
          | [d] => (digitString [d] ++ "e" ++ ex)%string
          | d :: r =>
              (digitString [d] ++ "." ++ digitString r ++ "e" ++ ex)%string
          | [] => "0"%string
          end in
      if m <? 0 then ("-" ++ body)%string else body
  end.

(** [ToLength]: NaN and anything below 1 become 0, a fraction is
    truncated, and the result is capped at 2^53 - 1. *)
Definition ToLength (x : number) : Z :=
  match x with
  | NaN => 0
  | Infinity negative => if negative then 0 else 2 ^ 53 - 1
  | Finite m e =>
      let i := if 0 <=? e then m * 10 ^ e else Z.quot m (10 ^ (- e)) in
      Z.min (Z.max i 0) (2 ^ 53 - 1)
  end.

(** The largest length an [Array] can have. *)
Definition maxArrayLength : Z := 2 ^ 32 - 1.

(** The [k] calls of a map function, in index order, threading the state
    [S] that the function reads and writes. *)
Fixpoint fill (S A : Type) (mapfn : nat -> S -> A * S)
         (k from : nat) (st : S) : list A * S :=
  match k with
  | O => ([], st)
  | Datatypes.S k' =>
      let '(a, st1) := mapfn from st in
      let '(r, st2) := fill mapfn k' (Datatypes.S from) st1 in
      (a :: r, st2)
  end.

(** [Array.from({ length }, mapfn)]: a new array of [ToLength(length)]
    elements, the [i]-th being [mapfn(undefined, i)]; a RangeError when
    that length is not a valid array length. *)
Definition ArrayFrom (S A : Type) (length : number)
           (mapfn : nat -> S -> A * S) (st : S) : completion (list A * S) :=
  let len := ToLength length in
  if maxArrayLength <? len then Throw (RangeError "Invalid array length")
  else Normal (fill mapfn (Z.to_nat len) O st).

(** Handlers: a computation over the script's state [S] that completes
    normally with a value or abruptly with an error.  The state reached
    when the error is raised is kept. *)
Definition M (S A : Type) : Type := S -> S * completion A.

Definition ret (S A : Type) (a : A) : M S A := fun st => (st, Normal a).
Arguments ret {S A} a.

Definition bind (S A B : Type) (c : M S A) (k : A -> M S B) : M S B :=
  fun st =>
    match c st with
    | (st1, Normal a) => k a st1
    | (st1, Throw e) => (st1, Throw e)
    end.

Definition throw (S A : Type) (e : error) : M S A := fun st => (st, Throw e).
Arguments throw {S A} e.

Definition get (S : Type) : M S S := fun st => (st, Normal st).
Arguments get {S}.

Definition modify (S : Type) (f : S -> S) : M S unit :=
  fun st => (f st, Normal tt).

End JS.

Declare Scope js_scope.
Delimit Scope js_scope with js.
Notation "x <- c ;; k" := (JS.bind c (fun x => k))
  (at level 61, c at next level, right associativity) : js_scope.
Notation "c ;; k" := (JS.bind c (fun _ => k))
  (at level 61, right associativity) : js_scope.

(** ** The parts of d3 the Renderer's colours go through *)

Module D3.

Local Open Scope Z_scope.

(** d3-scale-chromatic's [colors]: a specifier is cut into six-digit
    groups, each prefixed with [#]. *)
Fixpoint slices (n : nat) (specifier : string) : list string :=
  match n with
  | O => []
  | S n' => String "#"%char (String.substring 0 6 specifier)
              :: slices n' (JS.substring 6 specifier)
  end.

Definition colors (specifier : string) : list string :=
  slices (String.length specifier / 6)%nat specifier.

Definition schemeAccent : list string :=
  colors "7fc97fbeaed4fdc086ffff99386cb0f0027fbf5b17666666".

Record Rgb : Type := { r : Z; g : Z; b : Z; opacity : Z }.

(** The value of a string of exactly [n] hexadecimal digits. *)
Definition hex (n : nat) (s : string) : option Z :=
  match JS.readDigits 16 s 0 0 with
  | (v, k, EmptyString) => if Nat.eqb k n then Some v else None
  | _ => None
  end.

(** [d3.color(specifier).rgb()] on the hexadecimal forms [#rgb] and
    [#rrggbb], with the library's shifts and masks; [None] is the [null]
    that [d3.color] returns for a specifier it cannot read, among them
    [undefined].  The palette holds no other form. *)
Definition color (specifier : option string) : option Rgb :=
  match specifier with
  | Some (String "#"%char digits) =>
      match hex 3 digits, hex 6 digits with
      | Some m, _ =>
          Some {| r := Z.lor (Z.land (Z.shiftr m 8) 15) (Z.land (Z.shiftr m 4) 240);
                  g := Z.lor (Z.land (Z.shiftr m 4) 15) (Z.land m 240);
                  b := Z.lor (Z.shiftl (Z.land m 15) 4) (Z.land m 15);
                  opacity := 1 |}
      | None, Some n =>
          Some {| r := Z.land (Z.shiftr n 16) 255;
                  g := Z.land (Z.shiftr n 8) 255;
                  b := Z.land n 255;
                  opacity := 1 |}
      | None, None => None
      end
  | _ => None
  end.

(** The position of a key in the domain, counted from 1 as the scale's
    index map stores it. *)
Fixpoint indexOf (key : nat) (domain : list nat) : option nat :=
  match domain with
  | [] => None
  | k :: rest =>
      if Nat.eqb k key then Some 1%nat
      else option_map S (indexOf key rest)
  end.

(** One call [scale(d)] of [d3.scaleOrdinal(range)] with the implicit
    domain: a value not seen before is appended to the domain; the result
    is [range[(i - 1) % range.length]] for the value's position [i], and
    [None] is the [undefined] of an empty range.  Returns the result and
    the domain after the call. *)
Definition scaleOrdinal (range : list string) (domain : list nat) (d : nat)
  : option string * list nat :=
  let '(i, domain1) :=
    match indexOf d domain with
    | Some i => (i, domain)
    | None => (S (List.length domain), domain ++ [d])
    end in
  (nth_error range (Nat.modulo (i - 1) (List.length range)), domain1).

End D3.

(** ** What travels from the Controller to the Renderer *)

Module OffscreenCanvas.
(** The transferable drawing surface: its backing dimensions, which the
    scripts read and write, and whether [getContext('webgl')] gives a
    context on it; where the runtime has no WebGL for the surface the call
    returns [null]. *)
Record t : Type := { width : Z; height : Z; webgl : bool }.
End OffscreenCanvas.

Module Message.
(** The [data] of a message event.  A field that is absent from the
    object posted is [None]: the handler tests it with [!= null]. *)
Record t : Type := {
  offscreenCanvas : option OffscreenCanvas.t;
  width : option Z;
  height : option Z
}.

Definition transfer (c : OffscreenCanvas.t) : t :=
  {| offscreenCanvas := Some c; width := None; height := None |}.

Definition size (w h : Z) : t :=
  {| offscreenCanvas := None; width := Some w; height := Some h |}.

Definition carriesSurface (m : t) : bool :=
  match offscreenCanvas m with Some _ => true | None => false end.
End Message.

(** ** index.js: the Controller *)

Module Controller.

Import JS.
Local Open Scope js_scope.
Local Open Scope string_scope.

(** Lines 1-3.  An empty query string is replaced by [10000]: the
    assignment to [location.search] loads the page again with the query
    [?10000].  The result is the query string of the page the rest of the
    script serves. *)
Definition initialSearch (search : string) : string :=
  if String.eqb search "" then "?" ++ NumberToString (ofZ 10000) else search.

(** The [canvas] element inside [d3fc-canvas]: whether the runtime gives
    it a [transferControlToOffscreen] method, its dimensions, and whether
    the runtime has WebGL for its offscreen surface. *)
Record CanvasElement : Type := {
  transferable : bool;
  canvasWidth : Z;
  canvasHeight : Z;
  canvasWebgl : bool
}.

(** The page as the handler finds it. *)
Record Page : Type := { search : string; canvas : CanvasElement }.

(** The [detail] of a [measure] event. *)
Record Detail : Type := { width : Z; height : Z }.

(** A [Worker] object: the URL it was constructed with and the messages
    posted to it so far, oldest first. *)
Record Worker : Type := { url : string; posted : list Message.t }.

(** The script's mutable state: the variable [worker] and, of the
    outside world, the alerts shown. *)
Record State : Type := { worker : option Worker; alerts : list string }.

Definition initial : State := {| worker := None; alerts := [] |}.

Definition newWorker (u : string) : M State unit :=
  modify (fun st => {| worker := Some {| url := u; posted := [] |};
                       alerts := alerts st |}).

Definition alert (text : string) : M State unit :=
  modify (fun st => {| worker := worker st; alerts := alerts st ++ [text] |}).

(** The offscreen surface of a canvas element has its dimensions. *)
Definition surfaceOf (c : CanvasElement) : OffscreenCanvas.t :=
  {| OffscreenCanvas.width := canvasWidth c;
     OffscreenCanvas.height := canvasHeight c;
     OffscreenCanvas.webgl := canvasWebgl c |}.

(** [canvas.transferControlToOffscreen()]: calling a method the element
    does not have is a TypeError. *)
Definition transferControlToOffscreen (c : CanvasElement)
  : M State OffscreenCanvas.t :=
  if transferable c then ret (surfaceOf c)
  else throw (TypeError "canvas.transferControlToOffscreen is not a function").

(** [worker.postMessage(m)] *)
Definition postMessage (m : Message.t) : M State unit :=
  fun st =>
    match worker st with
    | Some w =>
        ({| worker := Some {| url := url w; posted := posted w ++ [m] |};
            alerts := alerts st |}, Normal tt)
    | None => (st, Throw (TypeError "worker is null"))
    end.

Definition workerUrl (p : Page) : string :=
  "worker.js#" ++ NumberToString (Number (substring 1 (search p))).

(** The message of line 20. *)
Definition sizeOf (detail : Detail) : Message.t :=
  Message.size (width detail) (height detail).

(** Lines 8-21: the listener of the [measure] event. *)
Definition onMeasure (p : Page) (detail : Detail) : M State unit :=
  st <- get ;;
  match worker st with
  | None =>
      newWorker (workerUrl p) ;;
      (if transferable (canvas p) then ret tt
       else alert "It looks like OffscreenCanvas isn't supported by your browser") ;;
      offscreenCanvas <- transferControlToOffscreen (canvas p) ;;
      postMessage (Message.transfer offscreenCanvas)
  | Some _ => ret tt
  end ;;
  postMessage (sizeOf detail).

(** The events of a Controller lifetime, in order.  An error a listener
    raises is reported and the next event is dispatched all the same. *)
Fixpoint run (p : Page) (events : list Detail) (st : State)
  : State * list error :=
  match events with
  | [] => (st, [])
  | d :: rest =>
      let '(st1, c) := onMeasure p d st in
      let '(st2, errs) := run p rest st1 in
      (st2, match c with Normal _ => errs | Throw e => e :: errs end)
  end.

(** The messages the worker has been sent. *)
Definition sent (st : State) : list Message.t :=
  match worker st with Some w => posted w | None => [] end.

(** How many of them hand over the drawing surface. *)
Definition transfers (st : State) : nat :=
  List.length (filter Message.carriesSurface (sent st)).

End Controller.

(** ** worker.js: the Renderer *)

Module Renderer.

Import JS.
Local Open Scope js_scope.
Local Open Scope string_scope.

Record Point : Type := { x : R; y : R; size : R }.

(** The domain of a linear scale: its two bounds. *)
Definition Domain : Type := (R * R)%type.

(** A fill colour in the form the shader takes: red, green, blue and
    alpha, each between 0 and 1. *)
Definition Color : Type := (R * R * R * R)%type.

(** A WebGL rendering context: the surface it draws on and the viewport
    [(x, y, width, height)]. *)
Record GL : Type := {
  canvas : OffscreenCanvas.t;
  viewport : Z * Z * Z * Z
}.

(** What the worker does to the outside world. *)
Inductive Effect : Type :=
| PostMessage (text : string)
| GetContext (surface : OffscreenCanvas.t)
| Draw (points : list Point) (xDomain yDomain : Domain) (fill : list Color)
| RequestAnimationFrame
| SetCanvasWidth (w : Z)
| SetCanvasHeight (h : Z)
| Viewport (x y w h : Z).

(** The module-level variables of the script, the frame callbacks the
    display still owes it, and the trace of its effects. *)
Record State : Type := {
  data : list Point;
  xScale : Domain;
  yScale : Domain;
  colorScale : list nat;
  context : option GL;
  pendingFrames : nat;
  trace : list Effect
}.

Definition emit (e : Effect) : M State unit :=
  modify (fun st =>
    {| data := data st; xScale := xScale st; yScale := yScale st;
       colorScale := colorScale st; context := context st;
       pendingFrames := pendingFrames st; trace := trace st ++ [e] |}).

Definition postMessage (text : string) : M State unit :=
  emit (PostMessage text).

(** [xScale.domain(d)] and [yScale.domain(d)] *)
Definition setXDomain (d : Domain) : M State unit :=
  modify (fun st =>
    {| data := data st; xScale := d; yScale := yScale st;
       colorScale := colorScale st; context := context st;
       pendingFrames := pendingFrames st; trace := trace st |}).

Definition setYDomain (d : Domain) : M State unit :=
  modify (fun st =>
    {| data := data st; xScale := xScale st; yScale := d;
       colorScale := colorScale st; context := context st;
       pendingFrames := pendingFrames st; trace := trace st |}).

(** [series.context(gl)]: the series holds what it is given, [null]
    included. *)
Definition setContext (gl : option GL) : M State unit :=
  modify (fun st =>
    {| data := data st; xScale := xScale st; yScale := yScale st;
       colorScale := colorScale st; context := gl;
       pendingFrames := pendingFrames st; trace := trace st |}).

(** [offscreenCanvas.getContext('webgl')]: a context on the surface, its
    viewport covering the surface, or [null] where the runtime has no
    WebGL for the surface. *)
Definition getContext (surface : OffscreenCanvas.t) : M State (option GL) :=
  emit (GetContext surface) ;;
  ret (if OffscreenCanvas.webgl surface
       then Some {| canvas := surface;
                    viewport := (0, 0, OffscreenCanvas.width surface,
                                 OffscreenCanvas.height surface)%Z |}
       else None).

(** Lines 49-52. [d3.color] of an unreadable colour is [null], and
    reading [rgb] of it raises. *)
Definition webglColor (color : option string) : completion Color :=
  match D3.color color with
  | Some c =>
      Normal (IZR (D3.r c) / 255, IZR (D3.g c) / 255, IZR (D3.b c) / 255,
              IZR (D3.opacity c))%R
  | None => Throw (TypeError "Cannot read properties of null (reading 'rgb')")
  end.

(** The state with another domain in the ordinal scale. *)
Definition withColorScale (st : State) (domain : list nat) : State :=
  {| data := data st; xScale := xScale st; yScale := yScale st;
     colorScale := domain; context := context st;
     pendingFrames := pendingFrames st; trace := trace st |}.

(** Line 47 and line 56: [(d, i) => webglColor(colorScale(i))].  The
    ordinal scale remembers the values it has been called with. *)
Definition fillColorValue (i : nat) : M State Color :=
  fun st =>
    let '(c, domain) := D3.scaleOrdinal D3.schemeAccent (colorScale st) i in
    (withColorScale st domain, webglColor c).

(** [fillColor(program)]: the value accessor is called once per datum,
    with the datum's index, in index order. *)
Fixpoint fillColorFrom (i : nat) (points : list Point) : M State (list Color) :=
  match points with
  | [] => ret []
  | _ :: rest =>
      c <- fillColorValue i ;;
      cs <- fillColorFrom (S i) rest ;;
      ret (c :: cs)
  end.

Definition fillColor : M State (list Color) :=
  st <- get ;; fillColorFrom 0 (data st).

(** Modelled from the spec: the point-series drawable of the charting
    library, d3fc's [seriesWebglPoint], which is imported and not part of
    the sources.  [series(data)] issues one draw call over the whole
    dataset on the context the series holds, the decoration hook
    computing the fill colours; when the series holds no context it
    returns without drawing. *)
Definition series : M State unit :=
  st <- get ;;
  match context st with
  | None => ret tt
  | Some _ =>
      fill <- fillColor ;;
      st1 <- get ;;
      emit (Draw (data st1) (xScale st1) (yScale st1) fill)
  end.

Definition requestAnimationFrame : M State unit :=
  modify (fun st =>
    {| data := data st; xScale := xScale st; yScale := yScale st;
       colorScale := colorScale st; context := context st;
       pendingFrames := S (pendingFrames st); trace := trace st |}) ;;
  emit RequestAnimationFrame.

(** Line 66, with [now] the value of [Date.now()]. *)
Definition ease (now : Z) : R :=
  (5 * (0.51 + 0.49 * sin (IZR now / 1000)))%R.

(** Lines 65-72. *)
Definition render (now : Z) : M State unit :=
  let ease := ease now in
  setXDomain (- ease, ease)%R ;;
  setYDomain (- ease, ease)%R ;;
  series ;;
  requestAnimationFrame ;;
  postMessage "frame".

(** Lines 84-86 on the context [gl]: the two assignments to the surface
    and the viewport call, which reads the dimensions back from the
    surface. *)
Definition resize (gl : GL) (w h : Z) : M State unit :=
  let c1 := {| OffscreenCanvas.width := w;
               OffscreenCanvas.height := OffscreenCanvas.height (canvas gl);
               OffscreenCanvas.webgl := OffscreenCanvas.webgl (canvas gl) |} in
  setContext (Some {| canvas := c1; viewport := viewport gl |}) ;;
  emit (SetCanvasWidth w) ;;
  let c2 := {| OffscreenCanvas.width := OffscreenCanvas.width c1;
               OffscreenCanvas.height := h;
               OffscreenCanvas.webgl := OffscreenCanvas.webgl c1 |} in
  setContext (Some {| canvas := c2; viewport := viewport gl |}) ;;
  emit (SetCanvasHeight h) ;;
  let v := (0, 0, OffscreenCanvas.width c2, OffscreenCanvas.height c2)%Z in
  setContext (Some {| canvas := c2; viewport := v |}) ;;
  emit (Viewport 0 0 (OffscreenCanvas.width c2) (OffscreenCanvas.height c2)).

(** The Renderer after the three effects of a size update on the context
    [gl]: the surface and the viewport have the dimensions [w] and [h]. *)
Definition resized (st : State) (gl : GL) (w h : Z) : State :=
  {| data := data st; xScale := xScale st; yScale := yScale st;
     colorScale := colorScale st;
     context := Some {| canvas :=
                          {| OffscreenCanvas.width := w;
                             OffscreenCanvas.height := h;
                             OffscreenCanvas.webgl :=
                               OffscreenCanvas.webgl (canvas gl) |};
                        viewport := (0, 0, w, h)%Z |};
     pendingFrames := pendingFrames st;
     trace := trace st ++ [SetCanvasWidth w; SetCanvasHeight h;
                           Viewport 0 0 w h] |}.

(** Lines 74-88: the listener of the [message] event; [now] is what
    [Date.now()] returns while it runs. *)
Definition onMessage (now : Z) (m : Message.t) : M State unit :=
  match Message.offscreenCanvas m with
  | Some offscreenCanvas =>
      postMessage "Canvas received. Rendering..." ;;
      gl <- getContext offscreenCanvas ;;
      setContext gl ;;
      render now
  | None => ret tt
  end ;;
  match Message.width m, Message.height m with
  | Some width, Some height =>
      st <- get ;;
      match context st with
      | Some gl => resize gl width height
      | None =>
          throw (TypeError "Cannot read properties of null (reading 'canvas')")
      end
  | _, _ => ret tt
  end.

(** The display calls back one of the frame callbacks it owes. *)
Definition onAnimationFrame (now : Z) : M State unit :=
  st <- get ;;
  match pendingFrames st with
  | O => ret tt
  | S n =>
      modify (fun st =>
        {| data := data st; xScale := xScale st; yScale := yScale st;
           colorScale := colorScale st; context := context st;
           pendingFrames := n; trace := trace st |}) ;;
      render now
  end.

(** What the worker's event loop dispatches, with the clock's reading. *)
Inductive Event : Type :=
| MessageEvent (now : Z) (m : Message.t)
| AnimationFrame (now : Z).

Definition dispatch (ev : Event) : M State unit :=
  match ev with
  | MessageEvent now m => onMessage now m
  | AnimationFrame now => onAnimationFrame now
  end.

(** A sequence of events.  An error a callback raises is reported and
    the loop goes on with the next event. *)
Fixpoint run (events : list Event) (st : State) : State * list error :=
  match events with
  | [] => (st, [])
  | ev :: rest =>
      let '(st1, c) := dispatch ev st in
      let '(st2, errs) := run rest st1 in
      (st2, match c with Normal _ => errs | Throw e => e :: errs end)
  end.

(** Events that hand over no surface: size updates and frame callbacks. *)
Definition noSurface (ev : Event) : bool :=
  match ev with
  | MessageEvent _ m => negb (Message.carriesSurface m)
  | AnimationFrame _ => true
  end.

Definition carriesSize (m : Message.t) : bool :=
  match Message.width m, Message.height m with
  | Some _, Some _ => true
  | _, _ => false
  end.


Definition isDraw (e : Effect) : bool :=
  match e with Draw _ _ _ _ => true | _ => false end.

(** The number of draw calls issued so far. *)
Definition draws (st : State) : nat := List.length (filter isDraw (trace st)).

(** The script up to line 63 leaves the Renderer waiting for a surface. *)
Definition awaiting (points : list Point) : State :=
  {| data := points;
     xScale := (-5, 5)%R;
     yScale := (-5, 5)%R;
     colorScale := [];
     context := None;
     pendingFrames := 0;
     trace := [PostMessage "Worker initialised. Importing scripts...";
               PostMessage "Scripts imported. Generating data...";
               PostMessage "Data generated. Configuring rendering...";
               PostMessage "Rendering configured. Awaiting canvas..."] |}.

(** [location.hash] of a worker constructed with [url]: the fragment
    with its [#], or the empty string when the fragment is absent or
    empty. *)
Fixpoint locationHash (url : string) : string :=
  match url with
  | EmptyString => EmptyString
  | String c rest =>
      if (c =? "#")%char
      then match rest with EmptyString => EmptyString | _ => url end
      else locationHash rest
  end.

Section Startup.

(** The random number generators of d3-random, as functions of the
    state of the underlying source. *)
Variable source : Type.
Variable randomNormal : source -> R * source.
Variable randomLogNormal : source -> R * source.

(** Lines 26-30: the map function of [Array.from]. *)
Definition point (_ : nat) (g : source) : Point * source :=
  let '(px, g1) := randomNormal g in
  let '(py, g2) := randomNormal g1 in
  let '(ps, g3) := randomLogNormal g2 in
  ({| x := px; y := py; size := (ps * 10)%R |}, g3).

(** Lines 1-63 with [hash] the value of [location.hash]: the dataset
    is generated, then the scales and the series are set up.  When
    [Array.from] raises, the script stops and no listener is ever
    registered. *)
Definition startup (hash : string) (g : source) : completion State :=
  match ArrayFrom (parseInt (substring 1 hash)) point g with
  | Normal (points, _) => Normal (awaiting points)
  | Throw e => Throw e
  end.

End Startup.

End Renderer.

(** ** The two scripts together *)

Module System.

(** The messages posted to the worker reach its listener in the order
    they were posted; [now] is what the worker's clock reads. *)
Definition deliver (now : Z) (messages : list Message.t)
  : list Renderer.Event :=
  map (Renderer.MessageEvent now) messages.

(** The Renderer after the Controller has served the measurements
    [events] on the page [p] and the worker has handled all it was
    sent. *)
Definition serve (p : Controller.Page) (events : list Controller.Detail)
           (now : Z) (renderer : Renderer.State)
  : Renderer.State * list JS.error :=
  Renderer.run
    (deliver now (Controller.sent (fst (Controller.run p events Controller.initial))))
    renderer.

End System.

(** ** What can be observed of a running Renderer *)

Module Reach.

Import Renderer.

Definition isFrameRequest (e : Effect) : bool :=
  match e with RequestAnimationFrame => true | _ => false end.

(** The per-frame pulse of line 71. *)
Definition isPulse (e : Effect) : bool :=
  match e with PostMessage text => String.eqb text "frame" | _ => false end.

Definition frameRequests (st : State) : nat :=
  List.length (filter isFrameRequest (trace st)).

Definition pulses (st : State) : nat :=
  List.length (filter isPulse (trace st)).

(** The messages of an event sequence that hand over a surface. *)
Definition surfaces (events : list Event) : nat :=
  List.length (filter (fun ev => negb (noSurface ev)) events).

(** Whether the series holds a context. *)
Definition ready (st : State) : bool :=
  match context st with Some _ => true | None => false end.

(** Whether a render loop has been started. *)
Definition started (st : State) : bool :=
  negb (Nat.eqb (pendingFrames st) 0).

(** Whether the series holds a context once an event has been handled:
    a message that hands over a surface decides it anew, by whether the
    surface gives a WebGL context. *)
Definition readyAfter (before : bool) (ev : Event) : bool :=
  match ev with
  | MessageEvent _ m =>
      match Message.offscreenCanvas m with
      | Some surface => OffscreenCanvas.webgl surface
      | None => before
      end
  | AnimationFrame _ => before
  end.

(** The messages with a width and a height that are handled while the
    series holds no context: before the first surface, or after a surface
    that gave no WebGL context. *)
Fixpoint sizeErrors (before : bool) (events : list Event) : nat :=
  match events with
  | [] => O
  | ev :: rest =>
      let after := readyAfter before ev in
      (match ev with
       | MessageEvent _ m => if carriesSize m && negb after then 1 else 0
       | AnimationFrame _ => 0
       end + sizeErrors after rest)%nat
  end.

(** The frame callbacks that find a render loop started: those that come
    after a message that handed over a surface. *)
Fixpoint framesRun (running : bool) (events : list Event) : nat :=
  match events with
  | [] => O
  | MessageEvent _ m :: rest =>
      framesRun (running || Message.carriesSurface m) rest
  | AnimationFrame _ :: rest =>
      ((if running then 1 else 0) + framesRun running rest)%nat
  end.

(** The iterations of the render loop that find a context to draw on:
    the first one for a surface that gave a context, and the frame
    callbacks of a started loop while the series holds a context. *)
Fixpoint liveDraws (running before : bool) (events : list Event) : nat :=
  match events with
  | [] => O
  | MessageEvent _ m :: rest =>
      match Message.offscreenCanvas m with
      | Some surface =>
          ((if OffscreenCanvas.webgl surface then 1 else 0)
           + liveDraws true (OffscreenCanvas.webgl surface) rest)%nat
      | None => liveDraws running before rest
      end
  | AnimationFrame _ :: rest =>
      ((if running && before then 1 else 0)
       + liveDraws running before rest)%nat
  end.

(** Effects that are none of the three of a render-loop iteration. *)
Definition quiet (e : Effect) : bool :=
  negb (isDraw e) && negb (isFrameRequest e) && negb (isPulse e).

(** The viewport of a context covers its surface. *)
Definition covers (gl : GL) : Prop :=
  viewport gl = (0, 0, OffscreenCanvas.width (canvas gl),
                 OffscreenCanvas.height (canvas gl))%Z.

(** Fill colours taken from the palette by position modulo 8. *)
Definition fromPalette (fill : list Color) : Prop :=
  forall (j : nat) (c : Color),
    nth_error fill j = Some c ->
    webglColor (nth_error D3.schemeAccent (Nat.modulo j 8)) = JS.Normal c.

(** The draw calls of a trace, each with its dataset and fill colours. *)
Fixpoint drawCalls (tr : list Effect) : list (list Point * list Color) :=
  match tr with
  | [] => []
  | Draw points _ _ fill :: rest => (points, fill) :: drawCalls rest
  | _ :: rest => drawCalls rest
  end.

(** What holds of the Renderer between any two events, [points] being
    the dataset generated at startup. *)
Record Inv (points : list Point) (st : State) : Prop := {
  inv_data : data st = points;
  inv_scale : exists k, colorScale st = seq 0 k;
  inv_viewport : forall gl, context st = Some gl -> covers gl;
  inv_domain : xScale st = yScale st
               /\ (snd (xScale st) = - fst (xScale st))%R
               /\ (0.1 <= snd (xScale st) <= 5)%R;
  inv_counts : frameRequests st = pulses st
               /\ (draws st <= frameRequests st)%nat;
  inv_draws : Forall (fun call => fst call = points
                                  /\ List.length (snd call) = List.length points
                                  /\ fromPalette (snd call))
                     (drawCalls (trace st))
}.

End Reach.

(** ** index.js, lines 24-39: the clock and the alert button *)

Module Page.

Import JS.
Local Open Scope js_scope.
Local Open Scope string_scope.

(** The main thread's state: the Controller's, the text of the
    [#timestamp] element and the frame callbacks the display owes
    [updateTimestamp]. *)
Record State : Type := {
  controller : Controller.State;
  innerText : string;
  pendingFrames : nat
}.

(** A Controller handler, run on the Controller's part of the state. *)
Definition lift (A : Type) (c : M Controller.State A) : M State A :=
  fun st =>
    let '(cst, r) := c (controller st) in
    ({| controller := cst; innerText := innerText st;
        pendingFrames := pendingFrames st |}, r).

(** Lines 26-29, with [now] the value of [Date.now()]: the number is
    assigned to [innerText], which holds it as a string. *)
Definition updateTimestamp (now : Z) : M State unit :=
  modify (fun st =>
    {| controller := controller st;
       innerText := NumberToString (ofZ now);
       pendingFrames := S (pendingFrames st) |}).

(** Lines 33-39: the listener of the button's [click] event. *)
Definition onClick : M State unit :=
  lift (Controller.alert
          ("This alert pauses the main thread, notice that the timestamp"
             ++ " has stopped updating. Dismissing the alert will resume the"
             ++ " main thread.")).

(** What the main thread's event loop dispatches. *)
Inductive Event : Type :=
| Measure (detail : Controller.Detail)
| AnimationFrame (now : Z)
| Click.

Definition dispatch (p : Controller.Page) (ev : Event) : M State unit :=
  match ev with
  | Measure detail => lift (Controller.onMeasure p detail)
  | AnimationFrame now =>
      st <- get ;;
      match pendingFrames st with
      | O => ret tt
      | S n =>
          modify (fun st =>
            {| controller := controller st; innerText := innerText st;
               pendingFrames := n |}) ;;
          updateTimestamp now
      end
  | Click => onClick
  end.

(** The script has run to its end at the time [now]: the listeners are
    registered and line 31 has called [updateTimestamp] once. *)
Definition blank : State :=
  {| controller := Controller.initial; innerText := ""; pendingFrames := 0 |}.

Definition loaded (now : Z) : State := fst (updateTimestamp now blank).

Fixpoint run (p : Controller.Page) (events : list Event) (st : State)
  : State * list error :=
  match events with
  | [] => (st, [])
  | ev :: rest =>
      let '(st1, c) := dispatch p ev st in
      let '(st2, errs) := run p rest st1 in
      (st2, match c with Normal _ => errs | Throw e => e :: errs end)
  end.

(** The measurements among the events, in order. *)
Fixpoint measurements (events : list Event) : list Controller.Detail :=
  match events with
  | [] => []
  | Measure detail :: rest => detail :: measurements rest
  | _ :: rest => measurements rest
  end.

Definition clicks (events : list Event) : nat :=
  List.length (filter (fun ev => match ev with Click => true | _ => false end)
                      events).

(** The clock reading the display last called back with, [start] if it
    has not called back. *)
Fixpoint lastFrame (start : Z) (events : list Event) : Z :=
  match events with
  | [] => start
  | AnimationFrame now :: rest => lastFrame now rest
  | _ :: rest => lastFrame start rest
  end.

End Page.

(** ** Concrete pages, events and generators, for the examples *)

Module Sample.

Definition page (capable : bool) : Controller.Page :=
  {| Controller.search := "?1000";
     Controller.canvas := {| Controller.transferable := capable;
                             Controller.canvasWidth := 300;
                             Controller.canvasHeight := 150;
                             Controller.canvasWebgl := true |} |}.

Definition measured (w h : Z) : Controller.Detail :=
  {| Controller.width := w; Controller.height := h |}.

Definition surface : OffscreenCanvas.t :=
  {| OffscreenCanvas.width := 300; OffscreenCanvas.height := 150;
     OffscreenCanvas.webgl := true |}.


(** A source that always yields the same draws. *)
Definition constant (v : R) (g : unit) : R * unit := (v, g).

Definition startup (hash : string) : JS.completion Renderer.State :=
  Renderer.startup (constant 0) (constant 1) hash tt.

(** A Renderer that awaits a surface with ten points at the origin. *)
Definition tenPoints : Renderer.State :=
  Renderer.awaiting
    (repeat {| Renderer.x := 0; Renderer.y := 0; Renderer.size := 10 |} 10).

End Sample.

(** * Properties *)

(** ** The built-ins on the strings the scripts meet *)

Example parseInt_10000 : JS.parseInt "10000" = JS.ofZ 10000.
Proof. reflexivity. Qed.
Example parseInt_NaN : JS.parseInt "NaN" = JS.NaN.
Proof. reflexivity. Qed.
Example parseInt_12abc : JS.parseInt "  -12abc" = JS.ofZ (-12).
Proof. reflexivity. Qed.
Example parseInt_hex : JS.parseInt "0x1F" = JS.ofZ 31.
Proof. reflexivity. Qed.
Example parseInt_exponent_form : JS.parseInt "1.5e+21" = JS.ofZ 1.
Proof. reflexivity. Qed.
Example Number_abc : JS.Number "abc" = JS.NaN.
Proof. reflexivity. Qed.
Example Number_12abc : JS.Number "12abc" = JS.NaN.
Proof. reflexivity. Qed.
Example Number_10000 : JS.Number "10000" = JS.ofZ 10000.
Proof. reflexivity. Qed.
Example Number_fraction : JS.Number " -12.50e1 " = JS.Finite (-1250) (-1).
Proof. reflexivity. Qed.
Example Number_lone_dot : JS.Number "." = JS.NaN.
Proof. reflexivity. Qed.
Example Number_hex : JS.Number "0x10" = JS.ofZ 16.
Proof. reflexivity. Qed.
Example Number_infinity : JS.Number "-Infinity" = JS.Infinity true.
Proof. reflexivity. Qed.
Example Number_empty : JS.Number "" = JS.ofZ 0.
Proof. reflexivity. Qed.
Example NumberToString_integral : JS.NumberToString (JS.Finite (-1250) (-1)) = "-125"%string.
Proof. reflexivity. Qed.
Example NumberToString_fraction : JS.NumberToString (JS.Finite 15 (-1)) = "1.5"%string.
Proof. reflexivity. Qed.
Example NumberToString_exponent : JS.NumberToString (JS.Finite 1 21) = "1e+21"%string.
Proof. reflexivity. Qed.
Example NumberToString_21_digits :
  JS.NumberToString (JS.Finite 1 20) = "100000000000000000000"%string.
Proof. reflexivity. Qed.
Example NumberToString_small_exponent : JS.NumberToString (JS.Finite 15 (-8)) = "1.5e-7"%string.
Proof. reflexivity. Qed.
Example NumberToString_leading_zeros : JS.NumberToString (JS.Finite 15 (-7)) = "0.0000015"%string.
Proof. reflexivity. Qed.
Example NumberToString_10000 : JS.NumberToString (JS.Finite 10000 0) = "10000"%string.
Proof. reflexivity. Qed.
Example NumberToString_long_exponent : JS.NumberToString (JS.Finite 12345 18) = "1.2345e+22"%string.
Proof. reflexivity. Qed.
Example schemeAccent_value :
  D3.schemeAccent = ["#7fc97f"; "#beaed4"; "#fdc086"; "#ffff99";
                     "#386cb0"; "#f0027f"; "#bf5b17"; "#666666"]%string.
Proof. reflexivity. Qed.
Example color_first : D3.color (Some "#7fc97f"%string)
  = Some {| D3.r := 127; D3.g := 201; D3.b := 127; D3.opacity := 1 |}.
Proof. reflexivity. Qed.
Example color_hex3 : D3.color (Some "#f80"%string)
  = Some {| D3.r := 255; D3.g := 136; D3.b := 0; D3.opacity := 1 |}.
Proof. reflexivity. Qed.


(** ** Decimal strings: what is printed is what is parsed *)

Section Digits.

Import JS.
Local Open Scope Z_scope.

Ltac digit_cases d H :=
  assert (d = 0 \/ d = 1 \/ d = 2 \/ d = 3 \/ d = 4
          \/ d = 5 \/ d = 6 \/ d = 7 \/ d = 8 \/ d = 9) as H by (unfold digit in *; lia);
  repeat destruct H as [H | H]; subst d.

Lemma digitValue_digitChar (d : Z) :
  digit d -> digitValue 10 (digitChar d) = Some d.
Proof. intros Hd. digit_cases d H; reflexivity. Qed.

Lemma digitString_app (ds1 ds2 : list Z) :
  digitString (ds1 ++ ds2) = (digitString ds1 ++ digitString ds2)%string.
Proof.
  unfold digitString.
  induction ds1 as [| d ds1 IH]; [reflexivity |].
  cbn [app fold_right String.append]. f_equal. exact IH.
Qed.

Lemma readDigits_digitString (ds : list Z) :
  Forall digit ds ->
  forall (acc : Z) (seen : nat),
    readDigits 10 (digitString ds) acc seen
    = (fold_left step ds acc, (seen + List.length ds)%nat, EmptyString).
Proof.
  induction 1 as [| d ds Hd Hds IH]; intros acc seen.
  - cbn. rewrite Nat.add_0_r. reflexivity.
  - cbn [digitString fold_right readDigits].
    rewrite (digitValue_digitChar Hd).
    change (fold_right _ _ ds) with (digitString ds).
    rewrite IH. cbn [fold_left List.length].
    rewrite Nat.add_succ_r. reflexivity.
Qed.

(** [parseInt] reads a non-empty string of decimal digits as the number
    they spell. *)
Lemma parseInt_digitString (ds : list Z) :
  ds <> [] -> Forall digit ds ->
  parseInt (digitString ds) = ofZ (fold_left step ds 0).
Proof.
  intros Hne Hall. destruct ds as [| d ds]; [congruence |].
  inversion Hall as [| ? ? Hd Hds]; subst.
  assert (Hread : forall acc seen,
             readDigits 10 (digitString (d :: ds)) acc seen
             = (fold_left step (d :: ds) acc,
                (seen + List.length (d :: ds))%nat, EmptyString))
    by (intros; apply readDigits_digitString; assumption).
  unfold parseInt.
  assert (Hprefix :
            readSign (trimStart (digitString (d :: ds)))
            = (false, digitString (d :: ds))
            /\ match digitString (d :: ds) with
               | String "0"%char (String "x"%char r) => (16, r)
               | String "0"%char (String "X"%char r) => (16, r)
               | _ => (10, digitString (d :: ds))
               end = (10, digitString (d :: ds))).
  { digit_cases d H; try (split; reflexivity).
    destruct ds as [| d2 ds]; [split; reflexivity |].
    inversion Hds as [| ? ? Hd2 _]; subst.
    digit_cases d2 H; split; reflexivity. }
  destruct Hprefix as [Hsign Hradix]. rewrite Hsign, Hradix, Hread.
  reflexivity.
Qed.

Lemma digitsFuel_spec (fuel : nat) :
  forall (z : Z) (acc : list Z) (j : Z),
    0 <= z < 10 ^ Z.of_nat fuel -> (1 <= fuel)%nat ->
    z < 10 ^ j -> 1 <= j ->
    exists ds,
      digitsFuel fuel z acc = ds ++ acc
      /\ ds <> [] /\ Forall digit ds
      /\ fold_left step ds 0 = z
      /\ Z.of_nat (List.length ds) <= j.
Proof.
  induction fuel as [| fuel IH]; intros z acc j Hz Hfuel Hj Hj1; [lia |].
  cbn [digitsFuel]. destruct (Z.ltb_spec z 10) as [Hlt | Hge].
  - exists [z]. repeat split; try discriminate.
    + constructor; [unfold digit; lia | constructor].
    + cbn. lia.
  - assert (Hfuel' : (1 <= fuel)%nat).
    { destruct fuel; [cbn in Hz; lia | lia]. }
    assert (Hj2 : 2 <= j).
    { destruct (Z.eq_dec j 1) as [-> | ?]; [cbn in Hj; lia | lia]. }
    destruct (IH (z / 10) (z mod 10 :: acc) (j - 1)) as (ds & Heq & Hne & Hall & Hval & Hlen).
    + split; [apply Z.div_pos; lia |].
      apply Z.div_lt_upper_bound; [lia |].
      replace (Z.of_nat (S fuel)) with (Z.succ (Z.of_nat fuel)) in Hz by lia.
      rewrite Z.pow_succ_r in Hz by lia. lia.
    + exact Hfuel'.
    + apply Z.div_lt_upper_bound; [lia |].
      replace j with (Z.succ (j - 1)) in Hj by lia.
      rewrite Z.pow_succ_r in Hj by lia. lia.
    + lia.
    + exists (ds ++ [z mod 10]). rewrite Heq, <- app_assoc. repeat split.
      * destruct ds; discriminate.
      * apply Forall_app. split; [exact Hall |].
        constructor; [| constructor].
        unfold digit. pose proof (Z.mod_pos_bound z 10). lia.
      * rewrite fold_left_app, Hval. cbn. unfold step.
        pose proof (Z.div_mod z 10). lia.
      * rewrite length_app. cbn. lia.
Qed.

Lemma decimalDigits_spec (z j : Z) :
  0 < z < 10 ^ j -> 1 <= j ->
  decimalDigits z <> [] /\ Forall digit (decimalDigits z)
  /\ fold_left step (decimalDigits z) 0 = z
  /\ Z.of_nat (List.length (decimalDigits z)) <= j.
Proof.
  intros Hz Hj. unfold decimalDigits.
  destruct (@digitsFuel_spec (S (Z.to_nat (Z.log2 z))) z [] j)
    as (ds & Heq & Hne & Hall & Hval & Hlen); try lia.
  - split; [lia |].
    pose proof (Z.log2_nonneg z) as Hlog.
    destruct (Z.log2_spec z) as [_ Hup]; [lia |].
    replace (Z.of_nat (S (Z.to_nat (Z.log2 z)))) with (Z.succ (Z.log2 z)) by lia.
    eapply Z.lt_le_trans; [exact Hup |].
    apply Z.pow_le_mono_l. lia.
  - rewrite Heq, app_nil_r. auto.
Qed.

Lemma dropZeros_spec (l : list Z) :
  exists j, l = repeat 0 j ++ dropZeros l.
Proof.
  induction l as [| d l [j IH]]; [exists 0%nat; reflexivity |].
  destruct (Z.eq_dec d 0) as [-> | Hd].
  - exists (S j). cbn. f_equal. exact IH.
  - exists 0%nat. destruct d; try congruence; reflexivity.
Qed.

Lemma rev_repeat_zero (j : nat) : rev (repeat 0 j) = repeat 0 j.
Proof.
  induction j as [| j IH]; [reflexivity |].
  cbn. rewrite IH. clear IH.
  induction j as [| j IH]; [reflexivity |]. cbn. f_equal. exact IH.
Qed.

(** [Number] reads a non-empty string of decimal digits as the number
    they spell. *)
Lemma Number_digitString (ds : list Z) :
  ds <> [] -> Forall digit ds ->
  Number (digitString ds) = ofZ (fold_left step ds 0).
Proof.
  intros Hne Hall. destruct ds as [| d ds]; [congruence |].
  inversion Hall as [| ? ? Hd Hds]; subst.
  pose proof (@readDigits_digitString (d :: ds) Hall 0 0%nat) as Hread.
  change (digitString (d :: ds))
    with (String (digitChar d) (digitString ds)) in *.
  set (s := String (digitChar d) (digitString ds)) in *.
  assert (Hfacts :
            trimStart s = s /\ nonDecimalLiteral s = None
            /\ readSign s = (false, s) /\ String.prefix "Infinity" s = false).
  { subst s. digit_cases d H; try (repeat split; reflexivity).
    destruct ds as [| d2 ds]; [repeat split; reflexivity |].
    inversion Hds as [| ? ? Hd2 _]; subst.
    digit_cases d2 H; repeat split; reflexivity. }
  destruct Hfacts as (Htrim & Hlit & Hsign & Hinf).
  unfold Number. rewrite Htrim. unfold s at 1.
  rewrite Hlit, Hsign, Hinf, Hread. reflexivity.
Qed.

Lemma NumberToString_integer (N : Z) :
  0 < N < 10 ^ 21 ->
  NumberToString (ofZ N) = digitString (decimalDigits N).
Proof.
  intros HN.
  destruct (@decimalDigits_spec N 21) as (Hne & Hall & Hval & Hlen); try lia.
  unfold NumberToString, ofZ.
  destruct (Z.eqb_spec N 0) as [| _]; [lia |].
  rewrite Z.abs_eq by lia.
  destruct (dropZeros_spec (rev (decimalDigits N))) as [j Hj].
  assert (Hsplit : decimalDigits N
                   = rev (dropZeros (rev (decimalDigits N))) ++ repeat 0 j).
  { rewrite <- (rev_involutive (decimalDigits N)) at 1.
    rewrite Hj at 1. rewrite rev_app_distr, rev_repeat_zero. reflexivity. }
  set (s := rev (dropZeros (rev (decimalDigits N)))) in *.
  assert (Hk : Z.of_nat (List.length (decimalDigits N))
               = Z.of_nat (List.length s) + Z.of_nat j).
  { rewrite Hsplit at 1. rewrite length_app, repeat_length. lia. }
  rewrite Z.add_0_r.
  replace ((Z.of_nat (List.length s) <=? Z.of_nat (List.length (decimalDigits N)))
           && (Z.of_nat (List.length (decimalDigits N)) <=? 21)) with true
    by (symmetry; apply andb_true_iff; split; apply Z.leb_le; lia).
  destruct (Z.ltb_spec N 0) as [| _]; [lia |].
  unfold zeros.
  replace (Z.to_nat (Z.of_nat (List.length (decimalDigits N))
                     - Z.of_nat (List.length s))) with j by lia.
  rewrite <- digitString_app, <- Hsplit. reflexivity.
Qed.

(** The template literal prints a natural number below 10^21 as its
    digits, and [parseInt] and [Number] read it back. *)
Lemma parseInt_NumberToString (N : Z) :
  0 <= N < 10 ^ 21 -> parseInt (NumberToString (ofZ N)) = ofZ N.
Proof.
  intros HN. destruct (Z.eq_dec N 0) as [-> | Hpos]; [reflexivity |].
  destruct (@decimalDigits_spec N 21) as (Hne & Hall & Hval & Hlen); try lia.
  rewrite NumberToString_integer by lia.
  rewrite parseInt_digitString by assumption.
  rewrite Hval. reflexivity.
Qed.

Lemma Number_NumberToString (N : Z) :
  0 <= N < 10 ^ 21 -> Number (NumberToString (ofZ N)) = ofZ N.
Proof.
  intros HN. destruct (Z.eq_dec N 0) as [-> | Hpos]; [reflexivity |].
  destruct (@decimalDigits_spec N 21) as (Hne & Hall & Hval & Hlen); try lia.
  rewrite NumberToString_integer by lia.
  rewrite Number_digitString by assumption.
  rewrite Hval. reflexivity.
Qed.

End Digits.

(** ** The Controller *)

Section ControllerFacts.

Import JS Controller.

Variable p : Page.

(** Once the variable [worker] holds a worker, a measurement posts its
    size and nothing else. *)
Lemma onMeasure_with_worker (d : Detail) (w : Worker) (shown : list string) :
  onMeasure p d {| worker := Some w; alerts := shown |}
  = ({| worker := Some {| url := url w; posted := posted w ++ [sizeOf d] |};
        alerts := shown |}, Normal tt).
Proof. reflexivity. Qed.

Lemma run_with_worker (ds : list Detail) :
  forall (w : Worker) (shown : list string),
    run p ds {| worker := Some w; alerts := shown |}
    = ({| worker := Some {| url := url w;
                            posted := posted w ++ map sizeOf ds |};
          alerts := shown |}, []).
Proof.
  induction ds as [| d ds IH]; intros w shown.
  - simpl. rewrite app_nil_r. destruct w; reflexivity.
  - cbn [run]. rewrite onMeasure_with_worker, IH. cbn [url posted map].
    rewrite <- app_assoc. reflexivity.
Qed.

(** The first measurement on a runtime with transferable surfaces. *)
Lemma onMeasure_first (d : Detail) :
  transferable (canvas p) = true ->
  onMeasure p d initial
  = ({| worker := Some {| url := workerUrl p;
                          posted := [Message.transfer (surfaceOf (canvas p));
                                     sizeOf d] |};
        alerts := [] |}, Normal tt).
Proof.
  intros Hcap. unfold onMeasure, bind, get, initial. cbn.
  unfold transferControlToOffscreen. rewrite Hcap. reflexivity.
Qed.

Lemma filter_sizes (ds : list Detail) :
  filter Message.carriesSurface (map sizeOf ds) = [].
Proof. induction ds; simpl; auto. Qed.

(** The first measurement on a runtime without them: the alert is shown,
    then the call of the missing method raises.  The variable [worker]
    is set by then and no message has been posted. *)
Lemma onMeasure_first_unsupported (d : Detail) :
  transferable (canvas p) = false ->
  onMeasure p d initial
  = ({| worker := Some {| url := workerUrl p; posted := [] |};
        alerts := ["It looks like OffscreenCanvas isn't supported by your browser"%string] |},
     Throw (TypeError "canvas.transferControlToOffscreen is not a function")).
Proof.
  intros Hcap. unfold onMeasure, bind, get, initial. cbn.
  unfold transferControlToOffscreen. rewrite Hcap. reflexivity.
Qed.

(** Whatever the runtime, the surface is handed over at most once. *)
Lemma transfers_at_most_once (ds : list Detail) :
  (transfers (fst (run p ds initial)) <= 1)%nat.
Proof.
  unfold transfers.
  destruct ds as [| d ds]; [simpl; lia |].
  cbn [run]. destruct (transferable (canvas p)) eqn:Hcap.
  - rewrite (onMeasure_first d Hcap), run_with_worker. cbn.
    rewrite ?filter_app, filter_sizes. simpl. lia.
  - rewrite (onMeasure_first_unsupported d Hcap), run_with_worker. cbn.
    rewrite filter_sizes. simpl. lia.
Qed.

End ControllerFacts.

(** C2. Whatever measurement events the Controller receives, one at
    least, the message that carries the offscreen canvas is never sent
    twice; and on a runtime with transferable surfaces it is sent exactly
    once: it is the first message posted, during the first event, and
    every later message only carries a size, the test [worker == null]
    being false from then on.  No listener raises. *)
Theorem surface_transfer_sent_once
  (p : Controller.Page) (d : Controller.Detail) (ds : list Controller.Detail) :
  (Controller.transfers (fst (Controller.run p (d :: ds) Controller.initial)) <= 1)%nat
  /\ (Controller.transferable (Controller.canvas p) = true ->
      Controller.sent (fst (Controller.onMeasure p d Controller.initial))
        = [Message.transfer (Controller.surfaceOf (Controller.canvas p));
           Controller.sizeOf d]
      /\ Controller.sent (fst (Controller.run p (d :: ds) Controller.initial))
         = Message.transfer (Controller.surfaceOf (Controller.canvas p))
             :: map Controller.sizeOf (d :: ds)
      /\ Controller.transfers
           (fst (Controller.run p (d :: ds) Controller.initial)) = 1%nat
      /\ snd (Controller.run p (d :: ds) Controller.initial) = []).
Proof.
  split; [apply transfers_at_most_once |].
  intros Hcap. cbn [Controller.run].
  rewrite (onMeasure_first p d Hcap), run_with_worker.
  unfold Controller.transfers. cbn.
  rewrite ?filter_app, filter_sizes. auto.
Qed.

Lemma surface_transfer_sent_once_witness :
  Controller.transfers
    (fst (Controller.run (Sample.page true)
            [Sample.measured 800 600; Sample.measured 640 480;
             Sample.measured 1024 768]
            Controller.initial)) = 1%nat.
Proof.
  apply (proj2 (surface_transfer_sent_once (Sample.page true)
                  (Sample.measured 800 600)
                  [Sample.measured 640 480; Sample.measured 1024 768])).
  reflexivity.
Defined.

(** C4. On a runtime whose canvas has no [transferControlToOffscreen], the
    first measurement event shows the alert and then raises a TypeError
    from the call of the missing method: the listener does not complete.
    Nothing has been posted to the worker. *)
Theorem unsupported_runtime_first_measure_raises
  (p : Controller.Page) (d : Controller.Detail) :
  Controller.transferable (Controller.canvas p) = false ->
  let '(st, c) := Controller.onMeasure p d Controller.initial in
  Controller.alerts st
    = ["It looks like OffscreenCanvas isn't supported by your browser"%string]
  /\ c = JS.Throw (JS.TypeError "canvas.transferControlToOffscreen is not a function")
  /\ Controller.sent st = [].
Proof.
  intros Hcap. rewrite (onMeasure_first_unsupported p d Hcap). auto.
Qed.

Lemma unsupported_runtime_first_measure_raises_witness :
  snd (Controller.onMeasure (Sample.page false) (Sample.measured 800 600) Controller.initial)
  = JS.Throw (JS.TypeError "canvas.transferControlToOffscreen is not a function").
Proof.
  pose proof (unsupported_runtime_first_measure_raises
                (Sample.page false) (Sample.measured 800 600) eq_refl) as H.
  destruct (Controller.onMeasure (Sample.page false) (Sample.measured 800 600)
              Controller.initial) as [st c].
  exact (proj1 (proj2 H)).
Defined.

(** ** The Renderer *)

Section RendererFacts.

Import JS Renderer.

Lemma schemeAccent_length : List.length D3.schemeAccent = 8%nat.
Proof. reflexivity. Qed.

(** Every colour of the palette is one [d3.color] reads. *)
Lemma webglColor_palette (k : nat) :
  exists c, webglColor (nth_error D3.schemeAccent (Nat.modulo k 8)) = Normal c.
Proof.
  assert (Hlt : (Nat.modulo k 8 < 8)%nat) by (apply Nat.mod_upper_bound; lia).
  destruct (Nat.modulo k 8) as [| [| [| [| [| [| [| [| n]]]]]]]];
    try lia; eexists; reflexivity.
Qed.

Lemma withColorScale_twice (st : State) (d1 d2 : list nat) :
  withColorScale (withColorScale st d1) d2 = withColorScale st d2.
Proof. reflexivity. Qed.

Lemma withColorScale_same (st : State) :
  withColorScale st (colorScale st) = st.
Proof. destruct st; reflexivity. Qed.

(** The value accessor never raises: whatever the scale has seen, it
    answers with a colour of the palette. *)
Lemma fillColorValue_ok (i : nat) (st : State) :
  exists c domain, fillColorValue i st = (withColorScale st domain, Normal c).
Proof.
  unfold fillColorValue, D3.scaleOrdinal.
  destruct (D3.indexOf i (colorScale st)) as [j |];
    rewrite schemeAccent_length;
    match goal with
    | |- context [nth_error _ (Nat.modulo ?k 8)] =>
        destruct (webglColor_palette k) as [c Hc]; rewrite Hc
    end; eauto.
Qed.

Lemma fillColorFrom_ok (points : list Point) :
  forall (i : nat) (st : State),
  exists cs domain,
    fillColorFrom i points st = (withColorScale st domain, Normal cs)
    /\ List.length cs = List.length points.
Proof.
  induction points as [| pt rest IH]; intros i st.
  - exists [], (colorScale st). rewrite withColorScale_same. auto.
  - cbn [fillColorFrom]. unfold bind.
    destruct (fillColorValue_ok i st) as (c & d1 & Hc). rewrite Hc.
    destruct (IH (S i) (withColorScale st d1)) as (cs & d2 & Hcs & Hlen).
    rewrite Hcs, withColorScale_twice.
    exists (c :: cs), d2. simpl. auto.
Qed.

(** One iteration of the render loop on a Renderer that holds a
    context: both domains are set, one draw call is issued on the whole
    dataset, one frame is requested and one pulse is posted. *)
Lemma render_ready (now : Z) (st : State) (gl : GL) :
  context st = Some gl ->
  exists st' fill,
    render now st = (st', Normal tt)
    /\ data st' = data st
    /\ context st' = Some gl
    /\ xScale st' = (- ease now, ease now)%R
    /\ yScale st' = (- ease now, ease now)%R
    /\ pendingFrames st' = S (pendingFrames st)
    /\ List.length fill = List.length (data st)
    /\ trace st' = trace st ++
         [Draw (data st) (- ease now, ease now)%R (- ease now, ease now)%R fill;
          RequestAnimationFrame; PostMessage "frame"].
Proof.
  intros Hctx. destruct st as [pts xs ys cs ctx pend tr].
  simpl in Hctx. subst ctx.
  unfold render, series, fillColor, requestAnimationFrame, postMessage, emit,
    setXDomain, setYDomain, bind, get, modify. cbn.
  match goal with
  | |- context [fillColorFrom 0 ?d ?s] =>
      destruct (fillColorFrom_ok d 0 s) as (fill & dom & Hfill & Hlen);
      rewrite Hfill
  end.
  cbn. eexists. exists fill. repeat split; try reflexivity; auto.
  cbn. rewrite <- !app_assoc. reflexivity.
Qed.

(** The state an iteration of the render loop leaves behind when the
    series holds no context: nothing is drawn, a frame is requested and
    the pulse is posted. *)
Lemma render_uninitialised (now : Z) (st : State) :
  context st = None ->
  render now st
  = ({| data := data st;
        xScale := (- ease now, ease now)%R;
        yScale := (- ease now, ease now)%R;
        colorScale := colorScale st;
        context := None;
        pendingFrames := S (pendingFrames st);
        trace := trace st ++ [RequestAnimationFrame; PostMessage "frame"] |},
     Normal tt).
Proof.
  intros Hctx. destruct st as [pts xs ys cs ctx pend tr].
  simpl in Hctx. subst ctx.
  unfold render, series, requestAnimationFrame, postMessage, emit,
    setXDomain, setYDomain, bind, get, modify, ret. cbn.
  rewrite <- ?app_assoc. reflexivity.
Qed.

Lemma render_domains (now : Z) (st : State) :
  xScale (fst (render now st)) = (- ease now, ease now)%R
  /\ yScale (fst (render now st)) = (- ease now, ease now)%R.
Proof.
  destruct (context st) as [gl |] eqn:Hctx.
  - destruct (render_ready now st Hctx)
      as (st' & fill & Hr & _ & _ & Hx & Hy & _).
    rewrite Hr. auto.
  - rewrite (render_uninitialised now st Hctx). auto.
Qed.

Lemma resize_spec (gl : GL) (w h : Z) (st : State) :
  resize gl w h st = (resized st gl w h, Normal tt).
Proof.
  destruct st as [pts xs ys cs ctx pend tr].
  unfold resize, resized, setContext, emit, bind, modify. cbn.
  rewrite <- !app_assoc. reflexivity.
Qed.

(** A size update on a Renderer that holds a context. *)
Lemma onMessage_size_ready (now w h : Z) (st : State) (gl : GL) :
  context st = Some gl ->
  onMessage now {| Message.offscreenCanvas := None;
                   Message.width := Some w; Message.height := Some h |} st
  = (resized st gl w h, Normal tt).
Proof.
  intros Hctx. unfold onMessage, bind, get, ret. cbn.
  rewrite Hctx. apply resize_spec.
Qed.

(** A size update on a Renderer that holds none: reading [canvas] of
    the null context raises before anything is written. *)
Lemma onMessage_size_uninitialised (now w h : Z) (st : State) :
  context st = None ->
  onMessage now {| Message.offscreenCanvas := None;
                   Message.width := Some w; Message.height := Some h |} st
  = (st, Throw (TypeError "Cannot read properties of null (reading 'canvas')")).
Proof.
  intros Hctx. unfold onMessage, bind, get, ret. cbn.
  rewrite Hctx. reflexivity.
Qed.

(** A message with neither a surface nor both dimensions does nothing. *)
Lemma onMessage_empty (now : Z) (m : Message.t) (st : State) :
  Message.carriesSurface m = false -> carriesSize m = false ->
  onMessage now m st = (st, Normal tt).
Proof.
  destruct m as [[c |] [w |] [h |]]; cbn; intros Hs Hz;
    try discriminate; reflexivity.
Qed.

Lemma onAnimationFrame_ready (now : Z) (st : State) (gl : GL) :
  context st = Some gl ->
  exists st',
    onAnimationFrame now st = (st', Normal tt)
    /\ context st' = Some gl /\ data st' = data st.
Proof.
  intros Hctx. unfold onAnimationFrame, bind, get, modify, ret.
  destruct (pendingFrames st) as [| n] eqn:Hp.
  - exists st. auto.
  - match goal with
    | |- context [render now ?s] =>
        destruct (@render_ready now s gl Hctx)
          as (st' & fill & Hr & Hd & Hc & _)
    end.
    rewrite Hr. exists st'. auto.
Qed.


Lemma dispatch_noSurface (ev : Event) (st : State) (gl : GL) :
  context st = Some gl -> noSurface ev = true ->
  exists st' gl',
    dispatch ev st = (st', Normal tt)
    /\ context st' = Some gl' /\ data st' = data st.
Proof.
  intros Hctx Hev. destruct ev as [now m | now]; cbn [dispatch].
  - cbn in Hev. apply negb_true_iff in Hev.
    destruct (carriesSize m) eqn:Hz.
    + destruct m as [[c |] [w |] [h |]]; try discriminate.
      rewrite (onMessage_size_ready now w h st Hctx).
      eexists. eexists. repeat split; reflexivity.
    + rewrite (onMessage_empty now m st Hev Hz). exists st, gl. auto.
  - destruct (onAnimationFrame_ready now st Hctx) as (st' & Hr & Hc & Hd).
    exists st', gl. auto.
Qed.

Lemma run_app (evs1 evs2 : list Event) :
  forall st,
    run (evs1 ++ evs2) st
    = (fst (run evs2 (fst (run evs1 st))),
       snd (run evs1 st) ++ snd (run evs2 (fst (run evs1 st)))).
Proof.
  induction evs1 as [| ev evs1 IH]; intros st.
  - cbn. destruct (run evs2 st); reflexivity.
  - cbn [app run]. destruct (dispatch ev st) as [st1 c].
    rewrite IH. destruct (run evs1 st1) as [st2 errs]. cbn.
    destruct c; reflexivity.
Qed.

Lemma run_noSurface (events : list Event) :
  forall (st : State) (gl : GL),
    context st = Some gl -> forallb noSurface events = true ->
    exists st' gl',
      run events st = (st', []) /\ context st' = Some gl'
      /\ data st' = data st.
Proof.
  induction events as [| ev events IH]; intros st gl Hctx Hall.
  - exists st, gl. auto.
  - cbn in Hall. apply andb_true_iff in Hall. destruct Hall as [Hev Hall].
    destruct (dispatch_noSurface ev st Hctx Hev) as (st1 & gl1 & Hd & Hc & Hdat).
    destruct (IH st1 gl1 Hc Hall) as (st2 & gl2 & Hr & Hc2 & Hdat2).
    exists st2, gl2. cbn [run]. rewrite Hd, Hr. repeat split; congruence.
Qed.


(** The message that hands over a surface that gives a WebGL context,
    without a size: the context is acquired and the first frame is
    rendered. *)
Lemma onMessage_transfer (now : Z) (surface : OffscreenCanvas.t) (st : State) :
  OffscreenCanvas.webgl surface = true ->
  exists st',
    onMessage now (Message.transfer surface) st = (st', Normal tt)
    /\ context st'
       = Some {| canvas := surface;
                 viewport := (0, 0, OffscreenCanvas.width surface,
                              OffscreenCanvas.height surface)%Z |}
    /\ data st' = data st
    /\ draws st' = S (draws st)
    /\ pendingFrames st' = S (pendingFrames st).
Proof.
  intros Hwebgl.
  unfold onMessage, Message.transfer, bind, getContext, setContext,
    postMessage, emit, modify, ret. cbn -[render]. rewrite Hwebgl.
  match goal with
  | |- context [render now ?s] =>
      destruct (@render_ready now s _ eq_refl)
        as (st' & fill & Hr & Hd & Hc & _ & _ & Hp & _ & Ht)
  end.
  rewrite Hr. exists st'. repeat split; auto.
  unfold draws. rewrite Ht. cbn. rewrite !filter_app, !length_app. cbn. lia.
Qed.

(** The message that hands over a surface that gives no WebGL context,
    without a size: the series holds [null], and the render loop is
    started all the same, drawing nothing. *)
Lemma onMessage_transfer_bare
      (now : Z) (surface : OffscreenCanvas.t) (st : State) :
  OffscreenCanvas.webgl surface = false ->
  exists st',
    onMessage now (Message.transfer surface) st = (st', Normal tt)
    /\ context st' = None
    /\ data st' = data st
    /\ draws st' = draws st
    /\ pendingFrames st' = S (pendingFrames st).
Proof.
  intros Hwebgl.
  unfold onMessage, Message.transfer, bind, getContext, setContext,
    postMessage, emit, modify, ret. cbn -[render]. rewrite Hwebgl.
  match goal with
  | |- context [render now ?s] => rewrite (@render_uninitialised now s eq_refl)
  end.
  eexists. split; [reflexivity |]. repeat split.
  unfold draws. cbn. rewrite !filter_app. cbn. rewrite !app_nil_r.
  reflexivity.
Qed.

End RendererFacts.




(** C3, as the specification states it, at a Renderer that has just
    started: a message [{width: 800, height: 600}] is not ignored, the
    listener raises. *)
Lemma size_before_surface_not_ignored :
  snd (Renderer.onMessage 0 (Message.size 800 600) (Renderer.awaiting []))
    = JS.Throw (JS.TypeError "Cannot read properties of null (reading 'canvas')")
  /\ Renderer.onMessage 0 (Message.size 800 600) (Renderer.awaiting [])
     <> (Renderer.awaiting [], JS.Normal tt).
Proof.
  split; [reflexivity | discriminate].
Qed.

(** C3, amended.  A message that carries a width and a height and no
    surface, received while the Renderer holds no context, makes the
    listener raise a TypeError before it has changed anything: nothing is
    drawn, no frame is requested, and the events that follow are handled
    as if the message had not been sent, the error apart. *)
Theorem size_before_surface_raises
  (st : Renderer.State) (now w h : Z) (rest : list Renderer.Event) :
  Renderer.context st = None ->
  Renderer.onMessage now (Message.size w h) st
    = (st, JS.Throw (JS.TypeError "Cannot read properties of null (reading 'canvas')"))
  /\ Renderer.run (Renderer.MessageEvent now (Message.size w h) :: rest) st
     = (fst (Renderer.run rest st),
        JS.TypeError "Cannot read properties of null (reading 'canvas')"
          :: snd (Renderer.run rest st)).
Proof.
  intros Hctx.
  pose proof (onMessage_size_uninitialised now w h st Hctx) as Hm.
  fold (Message.size w h) in Hm. split; [exact Hm |].
  cbn [Renderer.run Renderer.dispatch]. rewrite Hm.
  destruct (Renderer.run rest st); reflexivity.
Qed.

Lemma size_before_surface_raises_witness :
  Renderer.onMessage 0 (Message.size 800 600) (Renderer.awaiting [])
  = (Renderer.awaiting [],
     JS.Throw (JS.TypeError "Cannot read properties of null (reading 'canvas')")).
Proof.
  exact (proj1 (@size_before_surface_raises
                  (Renderer.awaiting []) 0 800 600 [] eq_refl)).
Defined.




(** C7. Whatever the clock reads, an iteration of the render loop leaves
    both scales with a domain whose upper bound is the negation of its
    lower bound. *)
Theorem easing_bounds_symmetric (now : Z) (st : Renderer.State) :
  let st' := fst (Renderer.render now st) in
  (snd (Renderer.xScale st') = - fst (Renderer.xScale st')
   /\ snd (Renderer.yScale st') = - fst (Renderer.yScale st'))%R.
Proof.
  destruct (render_domains now st) as [Hx Hy]. cbn zeta.
  rewrite Hx, Hy. cbn [fst snd]. split; lra.
Qed.

(** C10. Whatever the clock reads, the easing value lies between 0.1 and
    5, so that the domain an iteration of the render loop gives to each
    scale has a negative lower bound and a positive upper bound. *)
Theorem easing_value_bounded (now : Z) (st : Renderer.State) :
  let st' := fst (Renderer.render now st) in
  (0.1 <= Renderer.ease now <= 5
   /\ 0 < Renderer.ease now
   /\ fst (Renderer.xScale st') < 0 < snd (Renderer.xScale st')
   /\ fst (Renderer.yScale st') < 0 < snd (Renderer.yScale st'))%R.
Proof.
  destruct (render_domains now st) as [Hx Hy]. cbn zeta.
  rewrite Hx, Hy. cbn [fst snd].
  assert (Hb : (0.1 <= Renderer.ease now <= 5)%R).
  { unfold Renderer.ease. pose proof (SIN_bound (IZR now / 1000)). lra. }
  repeat split; lra.
Qed.

(** ** The fill colours *)

Section FillColours.

Import JS Renderer.

Lemma indexOf_seq_found (k : nat) :
  forall s i, (s <= i < s + k)%nat -> D3.indexOf i (seq s k) = Some (S (i - s)).
Proof.
  induction k as [| k IH]; intros s i Hi; [lia |].
  cbn [seq D3.indexOf]. destruct (Nat.eqb_spec s i) as [-> | Hne].
  - rewrite Nat.sub_diag. reflexivity.
  - rewrite IH by lia. cbn. f_equal. lia.
Qed.

Lemma indexOf_seq_missing (k : nat) :
  forall s i, (s + k <= i)%nat -> D3.indexOf i (seq s k) = None.
Proof.
  induction k as [| k IH]; intros s i Hi; [reflexivity |].
  cbn [seq D3.indexOf]. destruct (Nat.eqb_spec s i) as [-> | Hne]; [lia |].
  rewrite IH by lia. reflexivity.
Qed.

(** A scale that has seen [0 .. k-1] in this order, asked for an index
    up to [k], answers with the range entry at the index modulo the
    length of the range. *)
Lemma scaleOrdinal_in_order (range : list string) (k i : nat) :
  (i <= k)%nat ->
  D3.scaleOrdinal range (seq 0 k) i
  = (nth_error range (Nat.modulo i (List.length range)),
     seq 0 (Nat.max k (S i))).
Proof.
  intros Hi. unfold D3.scaleOrdinal.
  destruct (Nat.eq_dec i k) as [-> | Hne].
  - rewrite indexOf_seq_missing by lia. rewrite length_seq.
    replace (S k - 1)%nat with k by lia.
    replace (Nat.max k (S k)) with (S k) by lia.
    rewrite seq_S. reflexivity.
  - rewrite indexOf_seq_found by lia.
    replace (S (i - 0) - 1)%nat with i by lia.
    replace (Nat.max k (S i)) with k by lia. reflexivity.
Qed.

Lemma fillColorFrom_in_order (points : list Point) :
  forall (i k : nat) (st : State),
    colorScale st = seq 0 k -> (i <= k)%nat ->
    exists fill,
      fillColorFrom i points st
      = (withColorScale st (seq 0 (Nat.max k (i + List.length points))),
         Normal fill)
      /\ List.length fill = List.length points
      /\ forall j c, nth_error fill j = Some c ->
           webglColor (nth_error D3.schemeAccent (Nat.modulo (i + j) 8))
           = Normal c.
Proof.
  induction points as [| pt rest IH]; intros i k st Hdom Hi.
  - exists []. cbn [fillColorFrom List.length]. unfold ret.
    replace (Nat.max k (i + 0)) with k by lia.
    rewrite <- Hdom, withColorScale_same. repeat split; auto.
    intros [| j] c Hj; discriminate.
  - cbn [fillColorFrom]. unfold bind, fillColorValue.
    rewrite Hdom, scaleOrdinal_in_order, schemeAccent_length by exact Hi.
    destruct (webglColor_palette i) as [c Hc]. rewrite Hc.
    destruct (IH (S i) (Nat.max k (S i))
                (withColorScale st (seq 0 (Nat.max k (S i)))) eq_refl)
      as (fill & Hfill & Hlen & Hall); [lia |].
    rewrite Hfill, withColorScale_twice.
    exists (c :: fill). cbn [List.length ret].
    replace (Nat.max (Nat.max k (S i)) (S i + List.length rest))
      with (Nat.max k (i + S (List.length rest))) by lia.
    repeat split; auto.
    intros [| j] c' Hj; cbn in Hj.
    + injection Hj as <-. rewrite Nat.add_0_r. exact Hc.
    + replace (i + S j)%nat with (S i + j)%nat by lia. auto.
Qed.

End FillColours.

(** C6. The palette has 8 colours.  When the ordinal scale has been
    asked for the indices in ascending order from 0 (none yet, at the first
    draw, or [0 .. k-1] by earlier draws), the fill colour of the point of
    index [i] is the colour of the palette at position [i] modulo 8; the
    points of indices [i] and [i + 8] have the same fill colour. *)
Theorem fill_colour_wraps_modulo_palette (st : Renderer.State) (k : nat) :
  Renderer.colorScale st = seq 0 k ->
  List.length D3.schemeAccent = 8%nat
  /\ exists st' fill,
       Renderer.fillColor st = (st', JS.Normal fill)
       /\ List.length fill = List.length (Renderer.data st)
       /\ (forall i c, nth_error fill i = Some c ->
             Renderer.webglColor
               (nth_error D3.schemeAccent
                  (Nat.modulo i (List.length D3.schemeAccent)))
             = JS.Normal c)
       /\ (forall i, (i + List.length D3.schemeAccent
                        < List.length (Renderer.data st))%nat ->
             nth_error fill (i + List.length D3.schemeAccent) = nth_error fill i).
Proof.
  intros Hdom. split; [reflexivity |].
  unfold Renderer.fillColor, JS.bind, JS.get.
  destruct (@fillColorFrom_in_order (Renderer.data st) 0 k st Hdom)
    as (fill & Hfill & Hlen & Hall); [lia |].
  rewrite Hfill. eexists. exists fill.
  split; [reflexivity |]. split; [exact Hlen |].
  rewrite schemeAccent_length. split.
  - intros i c Hi. apply (Hall i c Hi).
  - intros i Hi.
    destruct (nth_error fill i) as [c1 |] eqn:H1;
      [| apply nth_error_None in H1; lia].
    destruct (nth_error fill (i + 8)) as [c2 |] eqn:H2;
      [| apply nth_error_None in H2; lia].
    apply Hall in H1, H2. cbn [Nat.add] in H1, H2.
    replace (Nat.modulo (i + 8) 8) with (Nat.modulo i 8) in H2.
    + congruence.
    + replace (i + 8)%nat with (i + 1 * 8)%nat by lia.
      rewrite Nat.Div0.mod_add. reflexivity.
Qed.

Lemma fill_colour_wraps_modulo_palette_witness :
  exists st' fill,
    Renderer.fillColor Sample.tenPoints = (st', JS.Normal fill)
    /\ List.length fill = 10%nat
    /\ nth_error fill 9 = nth_error fill 1.
Proof.
  destruct (@fill_colour_wraps_modulo_palette Sample.tenPoints 0 eq_refl)
    as (_ & st' & fill & Hfill & Hlen & _ & Hwrap).
  exists st', fill. split; [exact Hfill |]. split; [exact Hlen |].
  apply (Hwrap 1%nat). cbn. lia.
Defined.

(** ** The dataset and the render loop *)

Section Dataset.

Import JS Renderer.

Variable source : Type.
Variable randomNormal : source -> R * source.
Variable randomLogNormal : source -> R * source.

Lemma fill_length (S A : Type) (mapfn : nat -> S -> A * S) (k : nat) :
  forall (from : nat) (st : S),
    List.length (fst (fill mapfn k from st)) = k.
Proof.
  induction k as [| k IH]; intros from st; [reflexivity |].
  cbn [fill]. destruct (mapfn from st) as [a st1].
  specialize (IH (Datatypes.S from) st1).
  destruct (fill mapfn k (Datatypes.S from) st1) as [r st2].
  cbn in *. congruence.
Qed.

(** [Array.from] on a length the engine accepts. *)
Lemma ArrayFrom_length (S A : Type) (n : number)
      (mapfn : nat -> S -> A * S) (st : S) :
  (ToLength n <= maxArrayLength)%Z ->
  exists items st',
    ArrayFrom n mapfn st = Normal (items, st')
    /\ Z.of_nat (List.length items) = ToLength n.
Proof.
  intros Hmax. unfold ArrayFrom.
  destruct (Z.ltb_spec maxArrayLength (ToLength n)) as [Hlt | _]; [lia |].
  pose proof (fill_length mapfn (Z.to_nat (ToLength n)) 0 st) as Hlen.
  destruct (fill mapfn (Z.to_nat (ToLength n)) 0 st) as [items st'].
  exists items, st'. split; [reflexivity |].
  cbn in Hlen. rewrite Hlen. apply Z2Nat.id.
  assert (Hcap : (0 < 2 ^ 53 - 1)%Z) by reflexivity.
  unfold ToLength. destruct n as [| [|] | m e]; lia.
Qed.

Lemma ToLength_ofZ (z : Z) :
  (0 <= z <= maxArrayLength)%Z -> ToLength (ofZ z) = z.
Proof.
  unfold maxArrayLength, ToLength, ofZ. intros Hz.
  change (0 <=? 0)%Z with true. cbn iota.
  change (2 ^ 32 - 1)%Z with 4294967295%Z in Hz.
  change (2 ^ 53 - 1)%Z with 9007199254740991%Z.
  rewrite Z.pow_0_r, Z.mul_1_r. lia.
Qed.

Lemma startup_length (hash : string) (g : source) :
  (ToLength (parseInt (substring 1 hash)) <= maxArrayLength)%Z ->
  exists points,
    startup randomNormal randomLogNormal hash g = Normal (awaiting points)
    /\ Z.of_nat (List.length points) = ToLength (parseInt (substring 1 hash)).
Proof.
  intros Hmax. unfold startup.
  destruct (@ArrayFrom_length _ _ _ (point randomNormal randomLogNormal) g Hmax)
    as (items & g' & Hfrom & Hlen).
  rewrite Hfrom. exists items. auto.
Qed.

Lemma NumberToString_natural_nonempty (N : Z) :
  (0 <= N < 10 ^ 21)%Z -> NumberToString (ofZ N) <> EmptyString.
Proof.
  intros HN. destruct (Z.eq_dec N 0) as [-> | Hpos]; [discriminate |].
  destruct (@decimalDigits_spec N 21) as (Hne & _); try lia.
  rewrite NumberToString_integer by lia.
  destruct (decimalDigits N); [congruence | discriminate].
Qed.

Lemma locationHash_workerUrl (fragment : string) :
  fragment <> EmptyString ->
  locationHash ("worker.js#" ++ fragment) = ("#" ++ fragment)%string.
Proof. intros Hne. destruct fragment; [congruence | reflexivity]. Qed.

(** A hash that spells the point count in decimal digits yields that many
    points. *)
Lemma startup_decimal_hash (N : Z) (g : source) :
  (0 <= N <= maxArrayLength)%Z ->
  exists points,
    startup randomNormal randomLogNormal ("#" ++ NumberToString (ofZ N)) g
    = Normal (awaiting points)
    /\ Z.of_nat (List.length points) = N.
Proof.
  intros HN.
  assert (Hparse : parseInt (substring 1 ("#" ++ NumberToString (ofZ N)))
                   = ofZ N).
  { cbn [String.append substring]. apply parseInt_NumberToString.
    unfold maxArrayLength in HN. lia. }
  destruct (@startup_length ("#" ++ NumberToString (ofZ N)) g)
    as (points & Hstart & Hlen).
  { rewrite Hparse, ToLength_ofZ; lia. }
  exists points. split; [exact Hstart |].
  rewrite Hlen, Hparse. apply ToLength_ofZ. exact HN.
Qed.

(** X6. A page whose query spells a point count from 0 to 2^32 - 1 in
    decimal digits starts a Renderer with exactly that many points: the
    count survives [Number], the template literal and [parseInt]. *)
Lemma query_sets_point_count
      (N : Z) (c : Controller.CanvasElement) (g : source) :
  (0 <= N <= maxArrayLength)%Z ->
  exists points,
    startup randomNormal randomLogNormal
      (locationHash
         (Controller.workerUrl
            {| Controller.search :=
                 Controller.initialSearch ("?" ++ NumberToString (ofZ N));
               Controller.canvas := c |})) g
    = Normal (awaiting points)
    /\ Z.of_nat (List.length points) = N.
Proof.
  intros HN.
  assert (H21 : (0 <= N < 10 ^ 21)%Z) by (unfold maxArrayLength in HN; lia).
  unfold Controller.workerUrl. cbn [Controller.search].
  change (substring 1 (Controller.initialSearch ("?" ++ NumberToString (ofZ N))))
    with (NumberToString (ofZ N)).
  rewrite Number_NumberToString by exact H21.
  rewrite locationHash_workerUrl
    by (apply NumberToString_natural_nonempty; exact H21).
  apply startup_decimal_hash. exact HN.
Qed.

(** The render loop, once started, goes on: every frame callback draws
    once and requests the next frame. *)
Lemma run_frames (times : list Z) :
  forall (st : State) (gl : GL),
    context st = Some gl -> (1 <= pendingFrames st)%nat ->
    exists st',
      run (map AnimationFrame times) st = (st', [])
      /\ draws st' = (draws st + List.length times)%nat
      /\ (1 <= pendingFrames st')%nat
      /\ context st' = Some gl.
Proof.
  induction times as [| t times IH]; intros st gl Hctx Hp.
  - exists st. cbn. repeat split; auto.
  - cbn [map run dispatch].
    unfold onAnimationFrame, bind, get, modify.
    destruct (pendingFrames st) as [| n] eqn:Hn; [lia |].
    match goal with
    | |- context [render t ?s] =>
        destruct (@render_ready t s gl Hctx)
          as (st1 & fill & Hr & _ & Hc & _ & _ & Hp1 & _ & Ht)
    end.
    rewrite Hr.
    destruct (IH st1 gl Hc) as (st2 & Hrun & Hd & Hp2 & Hc2); [lia |].
    rewrite Hrun. exists st2. repeat split; auto.
    rewrite Hd. unfold draws. rewrite Ht. cbn [trace].
    rewrite filter_app, length_app. cbn. lia.
Qed.

Lemma render_loop_runs (st : State) (now0 : Z) (surface : OffscreenCanvas.t)
      (times : list Z) :
  OffscreenCanvas.webgl surface = true ->
  exists st',
    run (MessageEvent now0 (Message.transfer surface)
           :: map AnimationFrame times) st = (st', [])
    /\ draws st' = (draws st + 1 + List.length times)%nat.
Proof.
  intros Hwebgl. cbn [run dispatch].
  destruct (onMessage_transfer now0 surface st Hwebgl)
    as (st1 & Hr & Hc & _ & Hd & Hp).
  rewrite Hr.
  destruct (@run_frames times st1 _ Hc) as (st2 & Hrun & Hd2 & _); [lia |].
  rewrite Hrun. exists st2. split; [reflexivity | lia].
Qed.

(** Without a context the loop goes on as well: every frame callback
    sets the domains, requests the next frame and posts its pulse, and
    draws nothing. *)
Lemma run_frames_idle (times : list Z) :
  forall st : State,
    context st = None -> (1 <= pendingFrames st)%nat ->
    exists st',
      run (map AnimationFrame times) st = (st', [])
      /\ draws st' = draws st
      /\ (1 <= pendingFrames st')%nat
      /\ context st' = None.
Proof.
  induction times as [| t times IH]; intros st Hctx Hp.
  - exists st. cbn. repeat split; auto.
  - cbn [map run dispatch].
    unfold onAnimationFrame, bind, get, modify.
    destruct (pendingFrames st) as [| n] eqn:Hn; [lia |].
    match goal with
    | |- context [render t ?s] => rewrite (@render_uninitialised t s Hctx)
    end.
    match goal with
    | |- context [run (map AnimationFrame times) ?s] =>
        destruct (IH s eq_refl) as (st2 & Hrun & Hd & Hp2 & Hc2);
          [cbn; lia |]
    end.
    rewrite Hrun. exists st2. repeat split; auto.
    rewrite Hd. unfold draws. cbn [trace].
    rewrite !filter_app. cbn. rewrite !app_nil_r. reflexivity.
Qed.

Lemma render_loop_idle (st : State) (now0 : Z) (surface : OffscreenCanvas.t)
      (times : list Z) :
  OffscreenCanvas.webgl surface = false ->
  exists st',
    run (MessageEvent now0 (Message.transfer surface)
           :: map AnimationFrame times) st = (st', [])
    /\ draws st' = draws st.
Proof.
  intros Hwebgl. cbn [run dispatch].
  destruct (onMessage_transfer_bare now0 surface st Hwebgl)
    as (st1 & Hr & Hc & _ & Hd & Hp).
  rewrite Hr.
  destruct (@run_frames_idle times st1 Hc) as (st2 & Hrun & Hd2 & _); [lia |].
  rewrite Hrun. exists st2. split; [reflexivity | congruence].
Qed.

End Dataset.

(** C5, as the specification states it, at the point count 2^32: the
    Renderer reads the count from its hash, and [Array.from] refuses the
    length; no dataset is produced. *)
Lemma dataset_beyond_array_limit_raises :
  JS.parseInt (JS.substring 1 "#4294967296") = JS.ofZ 4294967296
  /\ Sample.startup "#4294967296" = JS.Throw (JS.RangeError "Invalid array length")
  /\ ~ (exists st, Sample.startup "#4294967296" = JS.Normal st
                   /\ Z.of_nat (List.length (Renderer.data st)) = 4294967296%Z).
Proof.
  assert (H : Sample.startup "#4294967296"
              = JS.Throw (JS.RangeError "Invalid array length"))
    by (vm_compute; reflexivity).
  split; [reflexivity |]. split; [exact H |].
  intros (st & Hst & _). rewrite H in Hst. discriminate.
Qed.

(** C5, amended.  For every point count [N] from 0 to 2^32 - 1 that the
    Renderer reads from its hash (the decimal digits of [N] are read as
    [N], lemma [startup_decimal_hash]), data generation produces exactly
    [N] points; with [N = 0] the dataset is empty.  On the dataset produced,
    the empty one included, the render loop does not fail, whichever
    surface arrives: the first iteration and every frame callback
    complete without an error.  On a surface that gives a WebGL context
    each of them hands the dataset to the series once; on a surface
    where [getContext('webgl')] returns null none of them draws.  The
    draw itself is the charting library's: it is recorded as an effect of
    the iteration, as described at [Renderer.series]. *)
Theorem dataset_has_point_count
  (source : Type) (randomNormal randomLogNormal : source -> R * source)
  (hash : string) (g : source) (N : Z) :
  JS.parseInt (JS.substring 1 hash) = JS.ofZ N ->
  (0 <= N <= JS.maxArrayLength)%Z ->
  exists st,
    Renderer.startup randomNormal randomLogNormal hash g = JS.Normal st
    /\ Z.of_nat (List.length (Renderer.data st)) = N
    /\ (N = 0%Z -> Renderer.data st = [])
    /\ forall (now0 : Z) (surface : OffscreenCanvas.t) (times : list Z),
       exists st',
         Renderer.run
           (Renderer.MessageEvent now0 (Message.transfer surface)
              :: map Renderer.AnimationFrame times) st = (st', [])
         /\ Renderer.draws st'
            = (if OffscreenCanvas.webgl surface
               then S (List.length times) else 0%nat).
Proof.
  intros Hparse HN.
  destruct (@startup_length source randomNormal randomLogNormal hash g)
    as (points & Hstart & Hlen).
  { rewrite Hparse, ToLength_ofZ; lia. }
  rewrite Hparse, ToLength_ofZ in Hlen by exact HN.
  exists (Renderer.awaiting points). split; [exact Hstart |].
  split; [exact Hlen |]. split.
  - intros ->. destruct points; [reflexivity | discriminate].
  - intros now0 surface times.
    destruct (OffscreenCanvas.webgl surface) eqn:Hwebgl.
    + destruct (@render_loop_runs (Renderer.awaiting points) now0 surface times
                  Hwebgl)
        as (st' & Hrun & Hd).
      exists st'. split; [exact Hrun |]. rewrite Hd. reflexivity.
    + destruct (@render_loop_idle (Renderer.awaiting points) now0 surface times
                  Hwebgl)
        as (st' & Hrun & Hd).
      exists st'. split; [exact Hrun |]. rewrite Hd. reflexivity.
Qed.

Lemma dataset_has_point_count_witness :
  (exists st,
     Sample.startup "#3" = JS.Normal st
     /\ Z.of_nat (List.length (Renderer.data st)) = 3%Z
     /\ (3%Z = 0%Z -> Renderer.data st = [])
     /\ forall (now0 : Z) (surface : OffscreenCanvas.t) (times : list Z),
        exists st',
          Renderer.run
            (Renderer.MessageEvent now0 (Message.transfer surface)
               :: map Renderer.AnimationFrame times) st = (st', [])
          /\ Renderer.draws st'
             = (if OffscreenCanvas.webgl surface
                then S (List.length times) else 0%nat))
  /\ (exists st,
        Sample.startup "#0" = JS.Normal st
        /\ Z.of_nat (List.length (Renderer.data st)) = 0%Z
        /\ (0%Z = 0%Z -> Renderer.data st = [])
        /\ forall (now0 : Z) (surface : OffscreenCanvas.t) (times : list Z),
           exists st',
             Renderer.run
               (Renderer.MessageEvent now0 (Message.transfer surface)
                  :: map Renderer.AnimationFrame times) st = (st', [])
             /\ Renderer.draws st'
                = (if OffscreenCanvas.webgl surface
                   then S (List.length times) else 0%nat)).
Proof.
  split.
  - apply (@dataset_has_point_count unit (Sample.constant 0) (Sample.constant 1)
             "#3" tt 3).
    + reflexivity.
    + unfold JS.maxArrayLength. lia.
  - apply (@dataset_has_point_count unit (Sample.constant 0) (Sample.constant 1)
             "#0" tt 0).
    + reflexivity.
    + unfold JS.maxArrayLength. lia.
Defined.

(** C8. Without a query string the page is loaded again with the query
    [?10000], and the Renderer it starts generates 10000 points.  With a
    query that is not numeric, [abc] for one, [Number] yields NaN, the
    worker's hash reads [#NaN], [parseInt] yields NaN again and
    [Array.from] makes an empty dataset: its length is 0. *)
Theorem point_count_default_and_non_numeric
  (source : Type) (randomNormal randomLogNormal : source -> R * source)
  (c : Controller.CanvasElement) (g : source) :
  (exists st,
     Renderer.startup randomNormal randomLogNormal
       (Renderer.locationHash
          (Controller.workerUrl
             {| Controller.search := Controller.initialSearch "";
                Controller.canvas := c |})) g = JS.Normal st
     /\ Z.of_nat (List.length (Renderer.data st)) = 10000%Z)
  /\ JS.Number "abc" = JS.NaN
  /\ forall search : string,
       JS.Number (JS.substring 1 search) = JS.NaN ->
       exists st,
         Renderer.startup randomNormal randomLogNormal
           (Renderer.locationHash
              (Controller.workerUrl
                 {| Controller.search := Controller.initialSearch search;
                    Controller.canvas := c |})) g = JS.Normal st
         /\ Renderer.data st = []
         /\ List.length (Renderer.data st) = 0%nat.
Proof.
  split; [| split; [reflexivity |]].
  - replace (Renderer.locationHash _) with "#10000"%string
      by (vm_compute; reflexivity).
    destruct (@startup_length source randomNormal randomLogNormal "#10000" g)
      as (points & Hstart & Hlen).
    { vm_compute. discriminate. }
    exists (Renderer.awaiting points). split; [exact Hstart |].
    cbn [Renderer.data Renderer.awaiting]. rewrite Hlen. reflexivity.
  - intros search Hnan.
    destruct search as [| ch rest]; [discriminate Hnan |].
    unfold Controller.workerUrl, Controller.initialSearch.
    cbn [String.eqb Controller.search]. rewrite Hnan.
    exists (Renderer.awaiting []). repeat split; reflexivity.
Qed.

Lemma point_count_default_and_non_numeric_witness :
  exists st,
    Sample.startup
      (Renderer.locationHash
         (Controller.workerUrl
            {| Controller.search := Controller.initialSearch "?abc";
               Controller.canvas := Controller.canvas (Sample.page true) |}))
    = JS.Normal st
    /\ Renderer.data st = []
    /\ List.length (Renderer.data st) = 0%nat.
Proof.
  apply (proj2 (proj2 (@point_count_default_and_non_numeric
                         unit (Sample.constant 0) (Sample.constant 1)
                         (Controller.canvas (Sample.page true)) tt))).
  reflexivity.
Defined.

(** ** The Controller and the Renderer together *)

Section SystemFacts.

Import JS.

Lemma deliver_sizes_ready (now : Z) (ds : list Controller.Detail) :
  forallb Renderer.noSurface
    (System.deliver now (map Controller.sizeOf ds)) = true.
Proof. induction ds as [| d ds IH]; [reflexivity | exact IH]. Qed.

(** X16. On a runtime with transferable surfaces whose canvas gives a
    WebGL context, once the worker has handled all that the Controller
    posted for the measurements served, one at least, its surface and
    viewport have the dimensions last measured, and no listener of the
    worker has raised. *)
Lemma measurements_reach_the_surface
      (p : Controller.Page) (ds : list Controller.Detail)
      (d : Controller.Detail) (now : Z) (renderer : Renderer.State) :
  Controller.transferable (Controller.canvas p) = true ->
  Controller.canvasWebgl (Controller.canvas p) = true ->
  exists renderer' gl,
    System.serve p (ds ++ [d]) now renderer = (renderer', [])
    /\ Renderer.context renderer' = Some gl
    /\ OffscreenCanvas.width (Renderer.canvas gl) = Controller.width d
    /\ OffscreenCanvas.height (Renderer.canvas gl) = Controller.height d
    /\ Renderer.viewport gl
       = (0, 0, Controller.width d, Controller.height d)%Z.
Proof.
  intros Hcap Hwebgl. unfold System.serve.
  assert (Hsent : Controller.sent
                    (fst (Controller.run p (ds ++ [d]) Controller.initial))
                  = Message.transfer (Controller.surfaceOf (Controller.canvas p))
                      :: map Controller.sizeOf ds ++ [Controller.sizeOf d]).
  { destruct ds as [| d0 ds]; cbn [app Controller.run].
    - rewrite (onMeasure_first p d Hcap). reflexivity.
    - rewrite (onMeasure_first p d0 Hcap), run_with_worker. cbn.
      rewrite map_app. reflexivity. }
  rewrite Hsent. unfold System.deliver. cbn [map Renderer.run Renderer.dispatch].
  destruct (onMessage_transfer now (Controller.surfaceOf (Controller.canvas p))
              renderer Hwebgl) as (r1 & Hr1 & Hc1 & _).
  rewrite Hr1, map_app, run_app.
  destruct (@run_noSurface _ r1 _ Hc1 (deliver_sizes_ready now ds))
    as (r2 & gl2 & Hr2 & Hc2 & _).
  unfold System.deliver in Hr2. rewrite Hr2.
  cbn [fst snd app map Renderer.run Renderer.dispatch].
  unfold Controller.sizeOf, Message.size.
  rewrite (@onMessage_size_ready now _ _ r2 gl2 Hc2).
  eexists. eexists. split; [reflexivity |].
  split; [reflexivity |]. cbn. auto.
Qed.

(** A Renderer that holds no context raises on every size update and
    stays as it is. *)
Lemma sizes_without_surface (now : Z) (ds : list Controller.Detail) :
  forall renderer : Renderer.State,
    Renderer.context renderer = None ->
    Renderer.run (System.deliver now (map Controller.sizeOf ds)) renderer
    = (renderer,
       repeat (TypeError "Cannot read properties of null (reading 'canvas')")
              (List.length ds)).
Proof.
  induction ds as [| d ds IH]; intros renderer Hctx; [reflexivity |].
  cbn [map System.deliver Renderer.run Renderer.dispatch List.length repeat].
  unfold Controller.sizeOf at 1. unfold Message.size.
  rewrite (onMessage_size_uninitialised now _ _ renderer Hctx).
  fold (System.deliver now (map Controller.sizeOf ds)).
  rewrite (IH renderer Hctx). reflexivity.
Qed.

(** X17. On a runtime without transferable surfaces the worker is never
    given a surface: once it has handled all that the Controller posted,
    it is as it was at startup, with no draw call, and its listener has
    raised once for every measurement after the first. *)
Lemma no_rendering_without_capability
      (p : Controller.Page) (d : Controller.Detail)
      (ds : list Controller.Detail) (now : Z) (points : list Renderer.Point) :
  Controller.transferable (Controller.canvas p) = false ->
  System.serve p (d :: ds) now (Renderer.awaiting points)
  = (Renderer.awaiting points,
     repeat (TypeError "Cannot read properties of null (reading 'canvas')")
            (List.length ds))
  /\ Renderer.draws (Renderer.awaiting points) = 0%nat.
Proof.
  intros Hcap. unfold System.serve. cbn [Controller.run].
  rewrite (onMeasure_first_unsupported p d Hcap), run_with_worker.
  cbn [fst Controller.sent Controller.worker Controller.posted app].
  split; [| reflexivity].
  apply sizes_without_surface. reflexivity.
Qed.

End SystemFacts.

(** ** What the Renderer keeps true from startup on *)

Section Reachable.

Import JS Renderer Reach.

Variable points : list Point.

Ltac conjs := repeat match goal with |- _ /\ _ => split end.

Lemma drawCalls_app (tr1 tr2 : list Effect) :
  drawCalls (tr1 ++ tr2) = drawCalls tr1 ++ drawCalls tr2.
Proof.
  induction tr1 as [| e tr1 IH]; [reflexivity |].
  destruct e; cbn; rewrite ?IH; reflexivity.
Qed.

Lemma quiet_effects (extra : list Effect) :
  forallb quiet extra = true ->
  filter isDraw extra = [] /\ filter isFrameRequest extra = []
  /\ filter isPulse extra = [] /\ drawCalls extra = [].
Proof.
  induction extra as [| e extra IH]; intros Hq; [auto |].
  cbn in Hq. apply andb_true_iff in Hq. destruct Hq as [He Hq].
  destruct (IH Hq) as (H1 & H2 & H3 & H4).
  unfold quiet in He. apply andb_true_iff in He. destruct He as [He He3].
  apply andb_true_iff in He. destruct He as [He1 He2].
  apply negb_true_iff in He1, He2, He3.
  cbn. rewrite He1, He2, He3, H1, H2, H3.
  destruct e; try discriminate; auto.
Qed.

(** The invariant is kept by anything that leaves the dataset, the
    scales and the render loop's effects alone. *)
Lemma Inv_extend (st0 s : State) (extra : list Effect) :
  Inv points st0 ->
  data s = data st0 -> colorScale s = colorScale st0 ->
  xScale s = xScale st0 -> yScale s = yScale st0 ->
  trace s = trace st0 ++ extra -> forallb quiet extra = true ->
  (forall gl, context s = Some gl -> covers gl) ->
  Inv points s
  /\ draws s = draws st0
  /\ frameRequests s = frameRequests st0.
Proof.
  intros [Hd Hs Hv Hdom Hc Hdr] Edata Escale Ex Ey Etrace Hquiet Hcov.
  destruct (quiet_effects extra Hquiet) as (Q1 & Q2 & Q3 & Q4).
  assert (Edraws : draws s = draws st0).
  { unfold draws. rewrite Etrace, filter_app, Q1, app_nil_r. reflexivity. }
  assert (Ereq : frameRequests s = frameRequests st0).
  { unfold frameRequests.
    rewrite Etrace, filter_app, Q2, app_nil_r. reflexivity. }
  assert (Epulse : pulses s = pulses st0).
  { unfold pulses. rewrite Etrace, filter_app, Q3, app_nil_r. reflexivity. }
  split; [| split; assumption]. constructor.
  - congruence.
  - rewrite Escale. exact Hs.
  - exact Hcov.
  - rewrite Ex, Ey. exact Hdom.
  - rewrite Edraws, Ereq, Epulse. exact Hc.
  - rewrite Etrace, drawCalls_app, Q4, app_nil_r. exact Hdr.
Qed.

(** One iteration of the render loop, with the scale's domain in index
    order: the colours come from the palette and the domain stays in
    index order. *)
Lemma render_iteration (now : Z) (st : State) (gl : GL) (k : nat) :
  context st = Some gl -> colorScale st = seq 0 k ->
  exists st' fill,
    render now st = (st', Normal tt)
    /\ data st' = data st
    /\ context st' = Some gl
    /\ xScale st' = (- ease now, ease now)%R
    /\ yScale st' = (- ease now, ease now)%R
    /\ pendingFrames st' = S (pendingFrames st)
    /\ colorScale st' = seq 0 (Nat.max k (List.length (data st)))
    /\ List.length fill = List.length (data st)
    /\ fromPalette fill
    /\ trace st' = trace st ++
         [Draw (data st) (- ease now, ease now)%R (- ease now, ease now)%R fill;
          RequestAnimationFrame; PostMessage "frame"].
Proof.
  intros Hctx Hscale. destruct st as [pts xs ys cs ctx pend tr].
  cbn in Hctx, Hscale. subst ctx cs.
  unfold render, series, fillColor, requestAnimationFrame, postMessage, emit,
    setXDomain, setYDomain, bind, get, modify. cbn.
  match goal with
  | |- context [fillColorFrom 0 ?d ?s] =>
      destruct (@fillColorFrom_in_order d 0 k s eq_refl)
        as (fill & Hfill & Hlen & Hpal); [lia |]; rewrite Hfill
  end.
  cbn. eexists. exists fill. repeat split; try reflexivity; auto.
  cbn. rewrite <- !app_assoc. reflexivity.
Qed.

Lemma ease_range (now : Z) : (0.1 <= ease now <= 5)%R.
Proof. unfold ease. pose proof (SIN_bound (IZR now / 1000)). lra. Qed.

(** An iteration of the render loop on a series that holds a context
    keeps the invariant, in whatever state the handler has brought the
    Renderer to before it. *)
Lemma render_preserves (now : Z) (st0 s : State) (gl : GL)
      (extra : list Effect) :
  Inv points st0 ->
  data s = data st0 -> colorScale s = colorScale st0 ->
  trace s = trace st0 ++ extra -> forallb quiet extra = true ->
  context s = Some gl -> covers gl ->
  exists st',
    render now s = (st', Normal tt)
    /\ Inv points st'
    /\ pendingFrames st' = S (pendingFrames s)
    /\ context st' = Some gl
    /\ draws st' = S (draws st0)
    /\ frameRequests st' = S (frameRequests st0).
Proof.
  intros [Hd [k Hs] Hv Hdom [Hc1 Hc2] Hdr] Edata Escale Etrace Hquiet Hctx Hcov.
  destruct (quiet_effects extra Hquiet) as (Q1 & Q2 & Q3 & Q4).
  destruct (@render_iteration now s gl k Hctx)
    as (st' & fill & Hr & Rd & Rc & Rx & Ry & Rp & Rs & Rlen & Rpal & Rt);
    [congruence |].
  assert (Edraws : draws st' = S (draws st0)).
  { unfold draws. rewrite Rt, Etrace, !filter_app, Q1. cbn.
    rewrite app_nil_r, length_app. cbn. lia. }
  assert (Ereq : frameRequests st' = S (frameRequests st0)).
  { unfold frameRequests. rewrite Rt, Etrace, !filter_app, Q2. cbn.
    rewrite app_nil_r, length_app. cbn. lia. }
  assert (Epulse : pulses st' = S (pulses st0)).
  { unfold pulses. rewrite Rt, Etrace, !filter_app, Q3. cbn.
    rewrite app_nil_r, length_app. cbn. lia. }
  pose proof (ease_range now) as Hease.
  exists st'. split; [exact Hr |]. split; [| auto].
  constructor.
  - congruence.
  - eexists. exact Rs.
  - intros gl' Hgl. rewrite Rc in Hgl. injection Hgl as <-. exact Hcov.
  - rewrite Rx, Ry. cbn. repeat split; lra.
  - rewrite Edraws, Ereq, Epulse. lia.
  - rewrite Rt, Etrace, !drawCalls_app, Q4, app_nil_r. cbn.
    apply Forall_app. split; [exact Hdr |].
    constructor; [| constructor]. cbn.
    split; [congruence |]. split; [| exact Rpal].
    rewrite Rlen, Edata, Hd. reflexivity.
Qed.

(** An iteration of the render loop on a series that holds no context
    keeps the invariant as well: it requests the next frame and posts its
    pulse, and draws nothing. *)
Lemma render_idle_preserves (now : Z) (st0 s : State) (extra : list Effect) :
  Inv points st0 ->
  data s = data st0 -> colorScale s = colorScale st0 ->
  trace s = trace st0 ++ extra -> forallb quiet extra = true ->
  context s = None ->
  exists st',
    render now s = (st', Normal tt)
    /\ Inv points st'
    /\ pendingFrames st' = S (pendingFrames s)
    /\ context st' = None
    /\ draws st' = draws st0
    /\ frameRequests st' = S (frameRequests st0).
Proof.
  intros [Hd Hs Hv Hdom [Hc1 Hc2] Hdr] Edata Escale Etrace Hquiet Hctx.
  destruct (quiet_effects extra Hquiet) as (Q1 & Q2 & Q3 & Q4).
  rewrite (@render_uninitialised now s Hctx).
  eexists. split; [reflexivity |].
  match goal with
  | |- Inv points ?s' /\ _ =>
      assert (Edraws : draws s' = draws st0);
        [| assert (Ereq : frameRequests s' = S (frameRequests st0));
           [| assert (Epulse : pulses s' = S (pulses st0)) ] ]
  end.
  { unfold draws. cbn [trace]. rewrite Etrace, !filter_app, Q1. cbn.
    rewrite !app_nil_r. reflexivity. }
  { unfold frameRequests. cbn [trace]. rewrite Etrace, !filter_app, Q2. cbn.
    rewrite app_nil_r, length_app. cbn. lia. }
  { unfold pulses. cbn [trace]. rewrite Etrace, !filter_app, Q3. cbn.
    rewrite app_nil_r, length_app. cbn. lia. }
  pose proof (ease_range now) as Hease.
  split; [| auto].
  constructor.
  - cbn [data]. congruence.
  - cbn [colorScale]. rewrite Escale. exact Hs.
  - cbn [context]. discriminate.
  - cbn. repeat split; lra.
  - rewrite Edraws, Ereq, Epulse. lia.
  - cbn [trace]. rewrite Etrace, !drawCalls_app, Q4, !app_nil_r. exact Hdr.
Qed.

Lemma awaiting_inv : Inv points (awaiting points).
Proof.
  constructor; cbn; auto.
  - exists 0%nat. reflexivity.
  - discriminate.
  - conjs; try reflexivity; lra.
Qed.

Lemma resized_inv (st : State) (gl : GL) (w h : Z) :
  Inv points st ->
  Inv points (resized st gl w h)
  /\ draws (resized st gl w h) = draws st
  /\ frameRequests (resized st gl w h) = frameRequests st.
Proof.
  intros HInv.
  apply (@Inv_extend st (resized st gl w h)
           [SetCanvasWidth w; SetCanvasHeight h; Viewport 0 0 w h]);
    try reflexivity; try exact HInv.
  intros gl' Hgl. cbn in Hgl. injection Hgl as <-. reflexivity.
Qed.

(** A message that hands over a surface that gives a WebGL context, with
    or without a size. *)
Lemma onMessage_surface_inv
      (now : Z) (surface : OffscreenCanvas.t) (ow oh : option Z) (st : State) :
  Inv points st ->
  OffscreenCanvas.webgl surface = true ->
  exists st' gl,
    onMessage now {| Message.offscreenCanvas := Some surface;
                     Message.width := ow; Message.height := oh |} st
    = (st', Normal tt)
    /\ Inv points st'
    /\ context st' = Some gl
    /\ pendingFrames st' = S (pendingFrames st)
    /\ draws st' = S (draws st)
    /\ frameRequests st' = S (frameRequests st).
Proof.
  intros HInv Hwebgl.
  unfold onMessage, bind, getContext, setContext, postMessage, emit, modify,
    ret, get.
  cbn -[render resize]. rewrite Hwebgl.
  match goal with
  | |- context [render now ?s] =>
      destruct (@render_preserves now st s
                  {| canvas := surface;
                     viewport := (0, 0, OffscreenCanvas.width surface,
                                  OffscreenCanvas.height surface)%Z |}
                  [PostMessage "Canvas received. Rendering...";
                   GetContext surface] HInv)
        as (st1 & Hr & HInv1 & Hp & Hc & Hd & Hq);
        try reflexivity
  end.
  { cbn. rewrite <- app_assoc. reflexivity. }
  rewrite Hr. cbn in Hp.
  destruct ow as [w |]; [destruct oh as [h |] |].
  - rewrite Hc, resize_spec.
    match goal with
    | |- context [resized st1 ?gl w h] =>
        destruct (@resized_inv st1 gl w h HInv1) as (HInv2 & Hd2 & Hq2)
    end.
    eexists. eexists. split; [reflexivity |].
    conjs; [exact HInv2 | reflexivity | exact Hp | | ].
    + rewrite Hd2. exact Hd.
    + rewrite Hq2. exact Hq.
  - exists st1. eexists. conjs; eauto.
  - exists st1. eexists. conjs; eauto.
Qed.

(** A message that hands over a surface that gives no WebGL context: the
    render loop is started without a draw, and a size in the same message
    makes the listener raise. *)
Lemma onMessage_surface_bare_inv
      (now : Z) (surface : OffscreenCanvas.t) (ow oh : option Z) (st : State) :
  Inv points st ->
  OffscreenCanvas.webgl surface = false ->
  exists st' c,
    onMessage now {| Message.offscreenCanvas := Some surface;
                     Message.width := ow; Message.height := oh |} st
    = (st', c)
    /\ c = (if carriesSize {| Message.offscreenCanvas := Some surface;
                              Message.width := ow; Message.height := oh |}
            then Throw (TypeError
                          "Cannot read properties of null (reading 'canvas')")
            else Normal tt)
    /\ Inv points st'
    /\ context st' = None
    /\ pendingFrames st' = S (pendingFrames st)
    /\ draws st' = draws st
    /\ frameRequests st' = S (frameRequests st).
Proof.
  intros HInv Hwebgl.
  unfold onMessage, bind, getContext, setContext, postMessage, emit, modify,
    ret, get, throw.
  cbn -[render resize]. rewrite Hwebgl.
  match goal with
  | |- context [render now ?s] =>
      destruct (@render_idle_preserves now st s
                  [PostMessage "Canvas received. Rendering...";
                   GetContext surface] HInv)
        as (st1 & Hr & HInv1 & Hp & Hc & Hd & Hq);
        try reflexivity
  end.
  { cbn. rewrite <- app_assoc. reflexivity. }
  rewrite Hr. cbn in Hp.
  destruct ow as [w |]; [destruct oh as [h |] |]; cbn [carriesSize
    Message.width Message.height].
  - rewrite Hc. exists st1. eexists. conjs; eauto.
  - exists st1. eexists. conjs; eauto.
  - exists st1. eexists. conjs; eauto.
Qed.

Lemma ready_some (st : State) (gl : GL) : context st = Some gl -> ready st = true.
Proof. unfold ready. intros ->. reflexivity. Qed.

Lemma ready_none (st : State) : context st = None -> ready st = false.
Proof. unfold ready. intros ->. reflexivity. Qed.

Lemma started_succ (st : State) (n : nat) :
  pendingFrames st = S n -> started st = true.
Proof. unfold started. intros ->. reflexivity. Qed.

Lemma surfaces_cons (ev : Event) (events : list Event) :
  surfaces (ev :: events)
  = ((if noSurface ev then 0 else 1) + surfaces events)%nat.
Proof. unfold surfaces. cbn [filter]. destruct (noSurface ev); reflexivity. Qed.

(** Any events, from any state the Renderer can be in: the counts of
    what has happened are read off the events. *)
Lemma run_counts (events : list Event) :
  forall st : State,
    Inv points st ->
    Inv points (fst (run events st))
    /\ snd (run events st)
       = repeat (TypeError "Cannot read properties of null (reading 'canvas')")
                (sizeErrors (ready st) events)
    /\ pendingFrames (fst (run events st))
       = (pendingFrames st + surfaces events)%nat
    /\ draws (fst (run events st))
       = (draws st + liveDraws (started st) (ready st) events)%nat
    /\ frameRequests (fst (run events st))
       = (frameRequests st + surfaces events
          + framesRun (started st) events)%nat.
Proof.
  induction events as [| ev events IH]; intros st HInv.
  - cbn. unfold surfaces. cbn. conjs; auto; lia.
  - rewrite surfaces_cons. cbn [run].
    destruct ev as [now m | now]; cbn [dispatch noSurface].
    + destruct m as [[surface |] ow oh];
        cbn [Message.carriesSurface Message.offscreenCanvas negb
             sizeErrors liveDraws framesRun readyAfter].
      * destruct (OffscreenCanvas.webgl surface) eqn:Hwebgl.
        -- destruct (@onMessage_surface_inv now surface ow oh st HInv Hwebgl)
             as (st1 & gl1 & Hr & HInv1 & Hc1 & Hp1 & Hd1 & Hq1).
           rewrite Hr. specialize (IH st1 HInv1).
           rewrite (@ready_some _ _ Hc1), (@started_succ _ _ Hp1) in IH.
           destruct (run events st1) as [st2 errs]. cbn [fst snd] in *.
           destruct IH as (I1 & I2 & I3 & I4 & I5).
           rewrite andb_false_r, orb_true_r.
           conjs; [exact I1 | exact I2 | lia | lia | lia].
        -- destruct (@onMessage_surface_bare_inv now surface ow oh st HInv
                       Hwebgl)
             as (st1 & c & Hr & Hcomp & HInv1 & Hc1 & Hp1 & Hd1 & Hq1).
           rewrite Hr. specialize (IH st1 HInv1).
           rewrite (@ready_none _ Hc1), (@started_succ _ _ Hp1) in IH.
           destruct (run events st1) as [st2 errs]. cbn [fst snd] in *.
           destruct IH as (I1 & I2 & I3 & I4 & I5).
           rewrite andb_true_r, orb_true_r.
           conjs; [exact I1 | | lia | lia | lia].
           rewrite Hcomp, I2.
           destruct (carriesSize _); reflexivity.
      * rewrite orb_false_r.
        destruct ow as [w |]; [destruct oh as [h |] |].
        -- destruct (context st) as [gl |] eqn:Hctx.
           ++ rewrite (onMessage_size_ready now w h st Hctx).
              destruct (@resized_inv st gl w h HInv) as (HInv1 & Hd1 & Hq1).
              specialize (IH _ HInv1).
              rewrite (@ready_some _ _ Hctx).
              change (ready (resized st gl w h)) with true in IH.
              change (started (resized st gl w h)) with (started st) in IH.
              change (pendingFrames (resized st gl w h))
                with (pendingFrames st) in IH.
              destruct (run events (resized st gl w h)) as [st2 errs].
              cbn [fst snd] in *.
              destruct IH as (I1 & I2 & I3 & I4 & I5).
              conjs; [exact I1 | exact I2 | lia | lia | lia].
           ++ rewrite (onMessage_size_uninitialised now w h st Hctx).
              specialize (IH st HInv). rewrite (@ready_none _ Hctx) in *.
              destruct (run events st) as [st2 errs]. cbn [fst snd] in *.
              destruct IH as (I1 & I2 & I3 & I4 & I5).
              conjs; [exact I1 | | lia | lia | lia].
              rewrite I2. reflexivity.
        -- rewrite onMessage_empty by reflexivity.
           specialize (IH st HInv).
           destruct (run events st) as [st2 errs]. cbn [fst snd] in *.
           destruct IH as (I1 & I2 & I3 & I4 & I5).
           cbn [carriesSize Message.width Message.height andb].
           conjs; [exact I1 | exact I2 | lia | lia | lia].
        -- rewrite onMessage_empty by reflexivity.
           specialize (IH st HInv).
           destruct (run events st) as [st2 errs]. cbn [fst snd] in *.
           destruct IH as (I1 & I2 & I3 & I4 & I5).
           cbn [carriesSize Message.width Message.height andb].
           conjs; [exact I1 | exact I2 | lia | lia | lia].
    + cbn [sizeErrors liveDraws framesRun readyAfter].
      unfold onAnimationFrame, bind, get, modify, ret.
      destruct (pendingFrames st) as [| n] eqn:Hn.
      * assert (Hst : started st = false)
          by (unfold started; rewrite Hn; reflexivity).
        specialize (IH st HInv). rewrite Hst in *.
        destruct (run events st) as [st2 errs]. cbn [fst snd] in *.
        destruct IH as (I1 & I2 & I3 & I4 & I5).
        cbn [andb].
        conjs; [exact I1 | exact I2 | lia | lia | lia].
      * rewrite (@started_succ _ _ Hn).
        destruct (context st) as [gl |] eqn:Hctx.
        -- match goal with
           | |- context [render now ?s] =>
               destruct (@render_preserves now st s gl [] HInv)
                 as (st1 & Hr & HInv1 & Hp1 & Hc1 & Hd1 & Hq1);
                 try reflexivity
           end.
           { cbn. rewrite app_nil_r. reflexivity. }
           { exact (inv_viewport HInv Hctx). }
           rewrite Hr. cbn [pendingFrames] in Hp1.
           specialize (IH st1 HInv1).
           rewrite (@ready_some _ _ Hc1), (@started_succ _ _ Hp1) in IH.
           rewrite (@ready_some _ _ Hctx).
           destruct (run events st1) as [st2 errs]. cbn [fst snd] in *.
           destruct IH as (I1 & I2 & I3 & I4 & I5).
           cbn [andb].
           conjs; [exact I1 | exact I2 | lia | lia | lia].
        -- match goal with
           | |- context [render now ?s] =>
               destruct (@render_idle_preserves now st s [] HInv)
                 as (st1 & Hr & HInv1 & Hp1 & Hc1 & Hd1 & Hq1);
                 try reflexivity
           end.
           { cbn. rewrite app_nil_r. reflexivity. }
           rewrite Hr. cbn [pendingFrames] in Hp1.
           specialize (IH st1 HInv1).
           rewrite (@ready_none _ Hc1), (@started_succ _ _ Hp1) in IH.
           rewrite (@ready_none _ Hctx).
           destruct (run events st1) as [st2 errs]. cbn [fst snd] in *.
           destruct IH as (I1 & I2 & I3 & I4 & I5).
           cbn [andb].
           conjs; [exact I1 | exact I2 | lia | lia | lia].
Qed.

Lemma run_inv (events : list Event) :
  Inv points (fst (run events (awaiting points))).
Proof. apply run_counts. apply awaiting_inv. Qed.

(** Fill colours taken from the palette by position are determined by
    their number. *)
Lemma fromPalette_unique (fill1 fill2 : list Color) :
  List.length fill1 = List.length fill2 ->
  fromPalette fill1 -> fromPalette fill2 -> fill1 = fill2.
Proof.
  intros Hlen H1 H2. apply nth_error_ext. intros j.
  destruct (nth_error fill1 j) as [c1 |] eqn:E1;
    destruct (nth_error fill2 j) as [c2 |] eqn:E2.
  - apply H1 in E1. apply H2 in E2. congruence.
  - apply nth_error_None in E2.
    assert (nth_error fill1 j <> None) by congruence.
    apply nth_error_Some in H. lia.
  - apply nth_error_None in E1.
    assert (nth_error fill2 j <> None) by congruence.
    apply nth_error_Some in H. lia.
  - reflexivity.
Qed.

End Reachable.

Section ReachableFacts.

Import JS Renderer Reach.

Variable points : list Point.

Lemma drawCalls_length (tr : list Effect) :
  List.length (drawCalls tr) = List.length (filter isDraw tr).
Proof.
  induction tr as [| e tr IH]; [reflexivity |].
  destruct e; cbn; rewrite ?IH; reflexivity.
Qed.

Lemma palette_fill_exists :
  exists fill, List.length fill = List.length points /\ fromPalette fill.
Proof.
  destruct (@fillColorFrom_in_order points 0 0 (awaiting points) eq_refl)
    as (fill & _ & Hlen & Hpal); [lia |].
  exists fill. split; [exact Hlen | exact Hpal].
Qed.

Lemma same_calls (fill : list Color) (calls : list (list Point * list Color)) :
  List.length fill = List.length points -> fromPalette fill ->
  Forall (fun call => fst call = points
                      /\ List.length (snd call) = List.length points
                      /\ fromPalette (snd call)) calls ->
  calls = repeat (points, fill) (List.length calls).
Proof.
  intros Hlen Hpal. induction 1 as [| [pts f] calls (Hp & Hl & Hf) _ IH];
    [reflexivity |].
  cbn in *. subst pts. rewrite <- IH.
  rewrite (@fromPalette_unique f fill) by (congruence || assumption).
  reflexivity.
Qed.

(** X7. From startup, after any events, the number of frame callbacks
    the display owes the Renderer is the number of messages received that
    handed over a surface: no render loop runs before a surface arrives,
    a loop once started never stops, and each further surface message
    starts one more loop beside the ones running. *)
Theorem one_render_loop_per_surface (events : list Event) :
  pendingFrames (fst (run events (awaiting points))) = surfaces events.
Proof.
  destruct (@run_counts points events (awaiting points)
              (awaiting_inv points)) as (_ & _ & Hp & _).
  exact Hp.
Qed.

(** X8. From startup, after any events, the errors the listener has
    raised are one TypeError for each message with a width and a height
    handled while the series holds no context: before the first surface
    has arrived, or when the last surface received, be it in the same
    message, gave no WebGL context.  Nothing else raises. *)
Theorem errors_are_sizes_without_context (events : list Event) :
  snd (run events (awaiting points))
  = repeat (TypeError "Cannot read properties of null (reading 'canvas')")
           (sizeErrors false events).
Proof.
  destruct (@run_counts points events (awaiting points)
              (awaiting_inv points)) as (_ & He & _).
  exact He.
Qed.

(** X9. From startup, after any events, there have been as many frame
    requests as [frame] pulses, namely one for each message that handed
    over a surface and one for each frame callback that came after the
    first of these messages; and no more draw calls than frame requests,
    an iteration of the render loop on a series without a context
    requesting a frame and posting its pulse without drawing. *)
Theorem requests_pulses_bound_draws (events : list Event) :
  let st := fst (run events (awaiting points)) in
  frameRequests st = pulses st
  /\ (draws st <= frameRequests st)%nat
  /\ frameRequests st = (surfaces events + framesRun false events)%nat.
Proof.
  destruct (@run_counts points events (awaiting points)
              (awaiting_inv points)) as (HInv & _ & _ & _ & Hq).
  destruct (inv_counts HInv) as [H1 H2].
  cbn zeta. split; [exact H1 |]. split; [exact H2 |].
  exact Hq.
Qed.

(** X10. From startup, after any events, the dataset is the one
    generated at startup, and every draw call so far was issued on this
    whole dataset with one and the same list of fill colours, one colour
    per point. *)
Theorem every_draw_uses_the_dataset (events : list Event) :
  let st := fst (run events (awaiting points)) in
  data st = points
  /\ exists fill,
       List.length fill = List.length points
       /\ drawCalls (trace st) = repeat (points, fill) (draws st).
Proof.
  pose proof (run_inv points events) as HInv. cbn zeta.
  split; [exact (inv_data HInv) |].
  destruct palette_fill_exists as (fill & Hlen & Hpal).
  exists fill. split; [exact Hlen |].
  unfold draws. rewrite <- drawCalls_length.
  apply same_calls; [exact Hlen | exact Hpal | exact (inv_draws HInv)].
Qed.

(** X11. From startup, after any events, the viewport of the context the
    series holds covers the whole surface: its origin is (0, 0) and its
    size is the surface's width and height. *)
Theorem viewport_covers_surface (events : list Event) :
  match context (fst (run events (awaiting points))) with
  | Some gl =>
      viewport gl = (0, 0, OffscreenCanvas.width (canvas gl),
                     OffscreenCanvas.height (canvas gl))%Z
  | None => True
  end.
Proof.
  pose proof (run_inv points events) as HInv.
  destruct (context (fst (run events (awaiting points)))) as [gl |] eqn:Hctx;
    [| exact I].
  exact (inv_viewport HInv Hctx).
Qed.

(** X12. From startup, after any events, both scales have the same
    domain, its upper bound is the negation of its lower bound, and the
    upper bound lies between 0.1 and 5: the initial [-5, 5] is the widest
    domain the scales ever have. *)
Theorem scales_share_a_symmetric_domain (events : list Event) :
  let st := fst (run events (awaiting points)) in
  xScale st = yScale st
  /\ (snd (xScale st) = - fst (xScale st))%R
  /\ (0.1 <= snd (xScale st) <= 5)%R.
Proof.
  exact (inv_domain (run_inv points events)).
Qed.

End ReachableFacts.

(** ** More on the fill colours *)

Section PaletteFacts.

Import JS Renderer Reach.

Ltac palette_cases k H :=
  assert (H : (Nat.modulo k 8 < 8)%nat) by (apply Nat.mod_upper_bound; lia);
  destruct (Nat.modulo k 8) as [| [| [| [| [| [| [| [| ?]]]]]]]]; try lia;
  clear H.

(** Evaluates the integer side of a colour: [d3.color] on a palette
    entry. *)
Ltac read_colour :=
  repeat match goal with
  | |- context [D3.color ?x] =>
      let v := eval vm_compute in (D3.color x) in
      change (D3.color x) with v
  | H : context [D3.color ?x] |- _ =>
      let v := eval vm_compute in (D3.color x) in
      change (D3.color x) with v in H
  end;
  cbn [D3.r D3.g D3.b D3.opacity] in *.

Lemma palette_channels (k : nat) :
  exists r g b : R,
    webglColor (nth_error D3.schemeAccent (Nat.modulo k 8))
    = Normal (r, g, b, 1%R)
    /\ (0 <= r <= 1 /\ 0 <= g <= 1 /\ 0 <= b <= 1)%R.
Proof.
  palette_cases k H; unfold webglColor; read_colour;
    (do 3 eexists; split; [reflexivity | repeat split; lra]).
Qed.

(** The eight colours of the palette are pairwise different, also as
    shader colours. *)
Lemma palette_injective (i j : nat) :
  webglColor (nth_error D3.schemeAccent (Nat.modulo i 8))
  = webglColor (nth_error D3.schemeAccent (Nat.modulo j 8)) ->
  Nat.modulo i 8 = Nat.modulo j 8.
Proof.
  palette_cases i Hi; palette_cases j Hj; intros Heq;
    try reflexivity; exfalso;
    unfold webglColor in Heq; read_colour;
    injection Heq; intros; lra.
Qed.

End PaletteFacts.

(** X13. Whatever the ordinal scale has been asked before, the value
    accessor of the fill colour does not raise, and the colour it returns
    has its red, green and blue between 0 and 1 and its alpha equal
    to 1. *)
Theorem fill_colour_normalised (i : nat) (st : Renderer.State) :
  exists (st' : Renderer.State) (r g b : R),
    Renderer.fillColorValue i st = (st', JS.Normal (r, g, b, 1%R))
    /\ (0 <= r <= 1 /\ 0 <= g <= 1 /\ 0 <= b <= 1)%R.
Proof.
  unfold Renderer.fillColorValue, D3.scaleOrdinal.
  destruct (match D3.indexOf i (Renderer.colorScale st) with
            | Some i0 => (i0, Renderer.colorScale st)
            | None => (S (List.length (Renderer.colorScale st)),
                       Renderer.colorScale st ++ [i])
            end) as [pos domain1].
  rewrite schemeAccent_length.
  destruct (palette_channels (pos - 1)) as (r & g & b & Hc & Hb).
  rewrite Hc.
  exists (Renderer.withColorScale st domain1), r, g, b.
  split; [reflexivity | exact Hb].
Qed.

(** X14. When the ordinal scale has been asked for the indices in
    ascending order from 0, two points of the dataset have the same fill
    colour exactly when their indices are congruent modulo 8: the eight
    colours of the palette are all different. *)
Theorem fill_colours_equal_iff_congruent (st : Renderer.State) (k : nat) :
  Renderer.colorScale st = seq 0 k ->
  exists st' fill,
    Renderer.fillColor st = (st', JS.Normal fill)
    /\ forall i j : nat,
         (i < List.length (Renderer.data st))%nat ->
         (j < List.length (Renderer.data st))%nat ->
         (nth_error fill i = nth_error fill j
          <-> Nat.modulo i 8 = Nat.modulo j 8).
Proof.
  intros Hdom. unfold Renderer.fillColor, JS.bind, JS.get.
  destruct (@fillColorFrom_in_order (Renderer.data st) 0 k st Hdom)
    as (fill & Hfill & Hlen & Hall); [lia |].
  rewrite Hfill. eexists. exists fill. split; [reflexivity |].
  intros i j Hi Hj.
  destruct (nth_error fill i) as [ci |] eqn:Ei;
    [| apply nth_error_None in Ei; lia].
  destruct (nth_error fill j) as [cj |] eqn:Ej;
    [| apply nth_error_None in Ej; lia].
  apply Hall in Ei, Ej. cbn [Nat.add] in Ei, Ej. split.
  - intros Heq. injection Heq as <-.
    apply palette_injective. congruence.
  - intros Hmod. rewrite Hmod in Ei. congruence.
Qed.

Lemma fill_colours_equal_iff_congruent_witness :
  exists st' fill,
    Renderer.fillColor Sample.tenPoints = (st', JS.Normal fill)
    /\ nth_error fill 1 = nth_error fill 9
    /\ nth_error fill 1 <> nth_error fill 2.
Proof.
  destruct (@fill_colours_equal_iff_congruent Sample.tenPoints 0 eq_refl)
    as (st' & fill & Hfill & Hiff).
  exists st', fill. split; [exact Hfill |]. split.
  - apply (Hiff 1%nat 9%nat); cbn; lia.
  - intros Heq. apply (Hiff 1%nat 2%nat) in Heq; cbn in *; lia.
Defined.

(** ** More on the point count and the start of the Renderer *)

Section SignedDigits.

Import JS.
Local Open Scope Z_scope.

Ltac digit_cases d H :=
  assert (d = 0 \/ d = 1 \/ d = 2 \/ d = 3 \/ d = 4
          \/ d = 5 \/ d = 6 \/ d = 7 \/ d = 8 \/ d = 9) as H
    by (unfold digit in *; lia);
  repeat destruct H as [H | H]; subst d.

(** [parseInt] yields NaN or an integer. *)
Lemma parseInt_shape (s : string) :
  parseInt s = NaN \/ exists z, parseInt s = ofZ z.
Proof.
  unfold parseInt. destruct (readSign (trimStart s)) as [negative s1].
  destruct (match s1 with
            | String "0"%char (String "x"%char r) => (16, r)
            | String "0"%char (String "X"%char r) => (16, r)
            | _ => (10, s1)
            end) as [radix s2].
  destruct (readDigits radix s2 0 0) as [[v n] rest].
  destruct n; eauto.
Qed.

(** A string of decimal digits has no sign, no radix prefix and is not
    [Infinity]. *)
Lemma digitString_plain (d : Z) (ds : list Z) :
  Forall digit (d :: ds) ->
  let s := digitString (d :: ds) in
  readSign s = (false, s)
  /\ match s with
     | String "0"%char (String "x"%char r) => (16, r)
     | String "0"%char (String "X"%char r) => (16, r)
     | _ => (10, s)
     end = (10, s)
  /\ String.prefix "Infinity" s = false.
Proof.
  intros Hall. inversion Hall as [| ? ? Hd Hds]; subst. cbn zeta.
  digit_cases d H; try (repeat split; reflexivity).
  destruct ds as [| d2 ds]; [repeat split; reflexivity |].
  inversion Hds as [| ? ? Hd2 _]; subst.
  digit_cases d2 H; repeat split; reflexivity.
Qed.

Lemma parseInt_minus_digitString (ds : list Z) :
  ds <> [] -> Forall digit ds ->
  parseInt (String "-" (digitString ds)) = ofZ (- fold_left step ds 0).
Proof.
  intros Hne Hall. destruct ds as [| d ds]; [congruence |].
  destruct (digitString_plain Hall) as (_ & Hradix & _).
  unfold parseInt.
  change (readSign (trimStart (String "-" (digitString (d :: ds)))))
    with (true, digitString (d :: ds)).
  cbv beta iota zeta. rewrite Hradix.
  rewrite (@readDigits_digitString (d :: ds) Hall 0 0%nat). reflexivity.
Qed.

Lemma Number_minus_digitString (ds : list Z) :
  ds <> [] -> Forall digit ds ->
  Number (String "-" (digitString ds)) = ofZ (- fold_left step ds 0).
Proof.
  intros Hne Hall. destruct ds as [| d ds]; [congruence |].
  destruct (digitString_plain Hall) as (_ & _ & Hinf).
  unfold Number.
  change (trimStart (String "-" (digitString (d :: ds))))
    with (String "-" (digitString (d :: ds))).
  change (nonDecimalLiteral (String "-" (digitString (d :: ds))))
    with (@None number).
  change (readSign (String "-" (digitString (d :: ds))))
    with (true, digitString (d :: ds)).
  cbv beta iota zeta. rewrite Hinf.
  rewrite (@readDigits_digitString (d :: ds) Hall 0 0%nat). reflexivity.
Qed.

(** A negative number is printed as a minus sign and its opposite. *)
Lemma NumberToString_negative (m e : Z) :
  m < 0 ->
  NumberToString (Finite m e)
  = String "-" (NumberToString (Finite (- m) e)).
Proof.
  intros Hm. unfold NumberToString.
  destruct (Z.eqb_spec m 0) as [| _]; [lia |].
  destruct (Z.eqb_spec (- m) 0) as [| _]; [lia |].
  destruct (Z.ltb_spec m 0) as [_ |]; [| lia].
  destruct (Z.ltb_spec (- m) 0) as [| _]; [lia |].
  rewrite Z.abs_opp. reflexivity.
Qed.

End SignedDigits.

Section StartupFacts.

Import JS Renderer.

Variable source : Type.
Variable randomNormal : source -> R * source.
Variable randomLogNormal : source -> R * source.

Lemma ToLength_integer (z : Z) :
  ToLength (ofZ z) = Z.min (Z.max z 0) 9007199254740991.
Proof.
  unfold ToLength, ofZ. change (0 <=? 0)%Z with true. cbn iota.
  rewrite Z.pow_0_r, Z.mul_1_r. reflexivity.
Qed.

Lemma startup_nonpositive (hash : string) (g : source) (z : Z) :
  parseInt (substring 1 hash) = ofZ z -> (z <= 0)%Z ->
  startup randomNormal randomLogNormal hash g = Normal (awaiting []).
Proof.
  intros Hparse Hz. unfold startup, ArrayFrom.
  rewrite Hparse, ToLength_integer.
  replace (Z.min (Z.max z 0) 9007199254740991) with 0%Z by lia.
  reflexivity.
Qed.

(** X4. What the start of the Renderer comes to, for every hash.  When
    [parseInt] reads no number from it, the dataset is empty.  When it
    reads an integer up to 2^32 - 1, the dataset has that many points,
    none for a negative integer.  When it reads a larger integer, and
    only then, data generation raises a RangeError and the script
    stops. *)
Theorem startup_outcome (hash : string) (g : source) :
  (parseInt (substring 1 hash) = NaN
   /\ startup randomNormal randomLogNormal hash g = Normal (awaiting []))
  \/ (exists z : Z,
        parseInt (substring 1 hash) = ofZ z
        /\ (z <= maxArrayLength)%Z
        /\ exists points,
             startup randomNormal randomLogNormal hash g
             = Normal (awaiting points)
             /\ Z.of_nat (List.length points) = Z.max z 0)
  \/ (exists z : Z,
        parseInt (substring 1 hash) = ofZ z
        /\ (maxArrayLength < z)%Z
        /\ startup randomNormal randomLogNormal hash g
           = Throw (RangeError "Invalid array length")).
Proof.
  destruct (parseInt_shape (substring 1 hash)) as [Hnan | [z Hz]].
  - left. split; [exact Hnan |]. unfold startup. rewrite Hnan. reflexivity.
  - right. unfold maxArrayLength.
    change (2 ^ 32 - 1)%Z with 4294967295%Z.
    destruct (Z_le_gt_dec z 4294967295) as [Hle | Hgt].
    + left. exists z. split; [exact Hz |]. split; [exact Hle |].
      destruct (@startup_length source randomNormal randomLogNormal hash g)
        as (points & Hstart & Hlen).
      { rewrite Hz, ToLength_integer. unfold maxArrayLength.
        change (2 ^ 32 - 1)%Z with 4294967295%Z. lia. }
      exists points. split; [exact Hstart |].
      rewrite Hlen, Hz, ToLength_integer. lia.
    + right. exists z. split; [exact Hz |]. split; [lia |].
      unfold startup, ArrayFrom. rewrite Hz, ToLength_integer.
      unfold maxArrayLength. change (2 ^ 32 - 1)%Z with 4294967295%Z.
      destruct (Z.ltb_spec 4294967295
                  (Z.min (Z.max z 0) 9007199254740991)) as [_ | Hno];
        [reflexivity | lia].
Qed.

(** X5. A page whose query spells a negative integer, or [-0], starts a
    Renderer with an empty dataset: the sign survives [Number], the
    template literal and [parseInt], and [Array.from] takes a negative
    length for 0. *)
Theorem negative_query_gives_empty_dataset
        (N : Z) (c : Controller.CanvasElement) (g : source) :
  (0 <= N < 10 ^ 21)%Z ->
  startup randomNormal randomLogNormal
    (locationHash
       (Controller.workerUrl
          {| Controller.search :=
               Controller.initialSearch ("?-" ++ NumberToString (ofZ N));
             Controller.canvas := c |})) g
  = Normal (awaiting []).
Proof.
  intros HN. unfold Controller.workerUrl. cbn [Controller.search].
  change (substring 1 (Controller.initialSearch ("?-" ++ NumberToString (ofZ N))))
    with (String "-" (NumberToString (ofZ N))).
  destruct (Z.eq_dec N 0) as [-> | Hpos]; [reflexivity |].
  destruct (@decimalDigits_spec N 21) as (Hne & Hall & Hval & _); try lia.
  rewrite NumberToString_integer by lia.
  rewrite Number_minus_digitString by assumption.
  rewrite Hval. unfold ofZ.
  rewrite NumberToString_negative by lia.
  rewrite Z.opp_involutive.
  change (Finite N 0) with (ofZ N).
  rewrite NumberToString_integer by lia.
  change ("worker.js#" ++ String "-" (digitString (decimalDigits N)))%string
    with ("worker.js#" ++ ("-" ++ digitString (decimalDigits N)))%string.
  rewrite locationHash_workerUrl by discriminate.
  apply (@startup_nonpositive _ g (- N)%Z); [| lia].
  change (substring 1 ("#" ++ ("-" ++ digitString (decimalDigits N))))
    with (String "-" (digitString (decimalDigits N))).
  rewrite parseInt_minus_digitString by assumption.
  rewrite Hval. reflexivity.
Qed.

End StartupFacts.

Lemma negative_query_gives_empty_dataset_witness :
  Sample.startup
    (Renderer.locationHash
       (Controller.workerUrl
          {| Controller.search :=
               Controller.initialSearch ("?-" ++ JS.NumberToString (JS.ofZ 250));
             Controller.canvas := Controller.canvas (Sample.page true) |}))
  = JS.Normal (Renderer.awaiting []).
Proof.
  apply (@negative_query_gives_empty_dataset
           unit (Sample.constant 0) (Sample.constant 1) 250
           (Controller.canvas (Sample.page true)) tt).
  lia.
Defined.

(** ** The main thread as a whole *)

Section PageFacts.

Import JS.

Variable p : Controller.Page.

(** X1. On a runtime without [transferControlToOffscreen], over any
    measurement events, one at least: the alert is shown once, only the
    first listener raises, and the worker is sent no surface, only the
    sizes of the measurements after the first; the size first measured is
    never posted. *)
Theorem unsupported_runtime_alerts_once
        (d : Controller.Detail) (ds : list Controller.Detail) :
  Controller.transferable (Controller.canvas p) = false ->
  let '(st, errs) := Controller.run p (d :: ds) Controller.initial in
  Controller.alerts st
    = ["It looks like OffscreenCanvas isn't supported by your browser"%string]
  /\ errs = [TypeError "canvas.transferControlToOffscreen is not a function"]
  /\ Controller.sent st = map Controller.sizeOf ds
  /\ Controller.transfers st = 0%nat.
Proof.
  intros Hcap. cbn [Controller.run].
  rewrite (onMeasure_first_unsupported p d Hcap), run_with_worker.
  unfold Controller.transfers. cbn. rewrite filter_sizes. auto.
Qed.

(** What a measurement does depends on the variable [worker] alone; the
    alerts shown before stay. *)
Lemma onMeasure_alerts (d : Controller.Detail)
      (w : option Controller.Worker) (shown : list string) :
  Controller.onMeasure p d {| Controller.worker := w;
                              Controller.alerts := shown |}
  = let '(st, c) :=
      Controller.onMeasure p d {| Controller.worker := w;
                                  Controller.alerts := [] |} in
    ({| Controller.worker := Controller.worker st;
        Controller.alerts := shown ++ Controller.alerts st |}, c).
Proof.
  destruct w as [w |].
  - rewrite !onMeasure_with_worker. cbn. rewrite app_nil_r. reflexivity.
  - unfold Controller.onMeasure, bind, get. cbn.
    unfold Controller.transferControlToOffscreen.
    destruct (Controller.transferable (Controller.canvas p)); cbn;
      rewrite ?app_nil_r; reflexivity.
Qed.

Lemma page_run_projects (events : list Page.Event) :
  forall (st : Page.State) (cst : Controller.State),
    Controller.worker (Page.controller st) = Controller.worker cst ->
    let st' := fst (Page.run p events st) in
    let cst' := fst (Controller.run p (Page.measurements events) cst) in
    Controller.worker (Page.controller st') = Controller.worker cst'
    /\ snd (Page.run p events st)
       = snd (Controller.run p (Page.measurements events) cst)
    /\ (List.length (Controller.alerts (Page.controller st'))
        + List.length (Controller.alerts cst)
        = List.length (Controller.alerts cst')
          + List.length (Controller.alerts (Page.controller st))
          + Page.clicks events)%nat.
Proof.
  induction events as [| ev events IH]; intros st cst Hw; cbn zeta.
  - cbn. split; [exact Hw |]. split; [reflexivity | lia].
  - destruct ev as [d | now |].
    + cbn [Page.run Page.measurements Page.dispatch Controller.run].
      unfold Page.lift.
      destruct st as [[w shown] text pend]. destruct cst as [cw cshown].
      cbn in Hw. subst cw. cbn [Page.controller].
      rewrite (onMeasure_alerts d w shown), (onMeasure_alerts d w cshown).
      destruct (Controller.onMeasure p d
                  {| Controller.worker := w; Controller.alerts := [] |})
        as [[w1 new] c].
      cbn [Controller.worker Controller.alerts].
      specialize (IH {| Page.controller :=
                          {| Controller.worker := w1;
                             Controller.alerts := shown ++ new |};
                        Page.innerText := text; Page.pendingFrames := pend |}
                     {| Controller.worker := w1;
                        Controller.alerts := cshown ++ new |} eq_refl).
      cbn zeta in IH. destruct IH as (I1 & I2 & I3).
      destruct (Page.run p events _) as [st2 errs2].
      destruct (Controller.run p (Page.measurements events) _) as [cst2 cerrs2].
      cbn in *. rewrite !length_app in I3.
      split; [exact I1 |]. split; [destruct c; congruence |].
      unfold Page.clicks in *. cbn. lia.
    + cbn [Page.run Page.measurements Page.dispatch].
      unfold Page.updateTimestamp, bind, get, modify, ret.
      destruct (Page.pendingFrames st) as [| n]; cbv beta iota zeta;
        match goal with
        | |- context [Page.run p events ?s] =>
            specialize (IH s cst Hw); cbn zeta in IH;
            destruct IH as (I1 & I2 & I3);
            destruct (Page.run p events s) as [st2 errs2]
        end;
        cbn in *; repeat split; auto.
    + cbn [Page.run Page.measurements Page.dispatch].
      unfold Page.onClick, Page.lift, Controller.alert, modify.
      cbv beta iota zeta.
      match goal with
      | |- context [Page.run p events ?s] =>
          specialize (IH s cst Hw); cbn zeta in IH;
          destruct IH as (I1 & I2 & I3);
          destruct (Page.run p events s) as [st2 errs2]
      end.
      cbn in *. rewrite length_app in I3. cbn in I3.
      split; [exact I1 |]. split; [exact I2 |].
      unfold Page.clicks in *. cbn. lia.
Qed.

Lemma page_run_clock (events : list Page.Event) :
  forall (st : Page.State) (start : Z),
    Page.innerText st = NumberToString (ofZ start) ->
    Page.pendingFrames st = 1%nat ->
    let st' := fst (Page.run p events st) in
    Page.innerText st' = NumberToString (ofZ (Page.lastFrame start events))
    /\ Page.pendingFrames st' = 1%nat.
Proof.
  induction events as [| ev events IH]; intros st start Htext Hpend; cbn zeta.
  - cbn. auto.
  - destruct ev as [d | now |]; cbn [Page.run Page.dispatch Page.lastFrame].
    + unfold Page.lift.
      destruct (Controller.onMeasure p d (Page.controller st)) as [cst c].
      cbv beta iota zeta.
      match goal with
      | |- context [Page.run p events ?s] =>
          specialize (IH s start Htext Hpend); cbn zeta in IH;
          destruct (Page.run p events s) as [st2 errs2]
      end.
      exact IH.
    + unfold Page.updateTimestamp, bind, get, modify, ret. rewrite Hpend.
      cbv beta iota zeta.
      match goal with
      | |- context [Page.run p events ?s] =>
          specialize (IH s now eq_refl eq_refl); cbn zeta in IH;
          destruct (Page.run p events s) as [st2 errs2]
      end.
      exact IH.
    + unfold Page.onClick, Page.lift, Controller.alert, modify.
      match goal with
      | |- context [Page.run p events ?s] =>
          specialize (IH s start Htext Hpend); cbn zeta in IH;
          destruct (Page.run p events s) as [st2 errs2]
      end.
      exact IH.
Qed.

(** X2. From the end of the script on, whatever measurements, frame
    callbacks and clicks follow in whatever order, the [#timestamp]
    element shows the clock reading of the last frame callback, or of the
    script's own call when there was none, and exactly one callback of
    [updateTimestamp] is pending. *)
Theorem timestamp_shows_last_frame (start : Z) (events : list Page.Event) :
  let st := fst (Page.run p events (Page.loaded start)) in
  Page.innerText st = NumberToString (ofZ (Page.lastFrame start events))
  /\ Page.pendingFrames st = 1%nat.
Proof.
  apply page_run_clock; reflexivity.
Qed.

(** X3. The clock and the alert button leave the worker alone: after any
    events of the main thread, the worker and the messages posted to it
    are those the measurements alone produce, the listeners that raised
    are the same, and the alerts shown are those of the measurements plus
    one for each click. *)
Theorem clock_and_button_leave_the_worker_alone
        (start : Z) (events : list Page.Event) :
  let st := fst (Page.run p events (Page.loaded start)) in
  let cst :=
    fst (Controller.run p (Page.measurements events) Controller.initial) in
  Controller.worker (Page.controller st) = Controller.worker cst
  /\ snd (Page.run p events (Page.loaded start))
     = snd (Controller.run p (Page.measurements events) Controller.initial)
  /\ List.length (Controller.alerts (Page.controller st))
     = (List.length (Controller.alerts cst) + Page.clicks events)%nat.
Proof.
  pose proof (@page_run_projects events (Page.loaded start)
                Controller.initial eq_refl) as H.
  cbn zeta in *. destruct H as (H1 & H2 & H3).
  split; [exact H1 |]. split; [exact H2 |].
  change (List.length (Controller.alerts Controller.initial)) with 0%nat in H3.
  change (List.length (Controller.alerts (Page.controller (Page.loaded start))))
    with 0%nat in H3.
  lia.
Qed.

End PageFacts.

Lemma unsupported_runtime_alerts_once_witness :
  Controller.alerts
    (fst (Controller.run (Sample.page false)
            [Sample.measured 800 600; Sample.measured 640 480]
            Controller.initial))
  = ["It looks like OffscreenCanvas isn't supported by your browser"%string].
Proof.
  pose proof (@unsupported_runtime_alerts_once (Sample.page false)
                (Sample.measured 800 600) [Sample.measured 640 480] eq_refl)
    as H.
  destruct (Controller.run _ _ _) as [st errs].
  exact (proj1 H).
Defined.

(** ** The draw calls, counted *)

Section DrawCount.

Import JS Renderer Reach.

Variable points : list Point.

(** X15. From startup, after any events, the draw calls issued are one
    for each message that handed over a surface giving a WebGL context,
    and one for each frame callback that came after a surface message
    while the series held a context, that is, while the last surface
    received was one giving a context: nothing is drawn before a surface
    arrives or on a surface without WebGL, and otherwise every frame
    callback draws exactly once. *)
Theorem draw_calls_counted (events : list Event) :
  draws (fst (run events (awaiting points)))
  = liveDraws false false events.
Proof.
  destruct (@run_counts points events (awaiting points)
              (awaiting_inv points)) as (_ & _ & _ & Hd & _).
  exact Hd.
Qed.

End DrawCount.

Lemma query_sets_point_count_witness :
  exists points,
    Sample.startup
      (Renderer.locationHash
         (Controller.workerUrl
            {| Controller.search :=
                 Controller.initialSearch ("?" ++ JS.NumberToString (JS.ofZ 3));
               Controller.canvas := Controller.canvas (Sample.page true) |}))
    = JS.Normal (Renderer.awaiting points)
    /\ Z.of_nat (List.length points) = 3%Z.
Proof.
  apply (@query_sets_point_count unit (Sample.constant 0) (Sample.constant 1)
           3 (Controller.canvas (Sample.page true)) tt).
  unfold JS.maxArrayLength. lia.
Defined.

Lemma measurements_reach_the_surface_witness :
  exists renderer' gl,
    System.serve (Sample.page true)
      ([Sample.measured 800 600; Sample.measured 640 480]
         ++ [Sample.measured 1024 768]) 0 Sample.tenPoints
    = (renderer', [])
    /\ Renderer.context renderer' = Some gl
    /\ OffscreenCanvas.width (Renderer.canvas gl) = 1024%Z
    /\ OffscreenCanvas.height (Renderer.canvas gl) = 768%Z
    /\ Renderer.viewport gl = (0, 0, 1024, 768)%Z.
Proof.
  apply (@measurements_reach_the_surface (Sample.page true)
           [Sample.measured 800 600; Sample.measured 640 480]
           (Sample.measured 1024 768) 0 Sample.tenPoints).
  - reflexivity.
  - reflexivity.
Defined.

Lemma no_rendering_without_capability_witness :
  System.serve (Sample.page false)
    [Sample.measured 800 600; Sample.measured 640 480] 0 Sample.tenPoints
  = (Sample.tenPoints,
     [JS.TypeError "Cannot read properties of null (reading 'canvas')"]).
Proof.
  exact (proj1 (@no_rendering_without_capability (Sample.page false)
                  (Sample.measured 800 600) [Sample.measured 640 480] 0
                  (repeat {| Renderer.x := 0; Renderer.y := 0;
                             Renderer.size := 10 |} 10) eq_refl)).
Defined.
